(** * server.py: a local static-file server, modelled and verified

    The script resolves a base directory, checks that the start page is
    there, probes the loopback ports 8000..8019 for a free one, prints a
    banner, opens the browser and serves until interrupted.

    Every statement of the script is a call into the Python runtime or
    the operating system.  The embedding therefore threads a [World]
    (working directory, sockets held by the process, the calls made so
    far) through a small state-and-exception monad, and takes the answers
    of the runtime from an [Env]: a deterministic environment that
    decides the outcome of each library call from the interaction so far. *)

From Stdlib Require Import ZArith List String Ascii Bool Lia DecimalString.
From Equations Require Import Equations.
Import ListNotations.

Local Open Scope Z_scope.
Local Open Scope string_scope.

(** ** Module-level constants (server.py, lines 7-9) *)

Definition HOST : string := "127.0.0.1".
Definition PORT : Z := 8000.
Definition START_PAGE : string := "main.html".

(** The line feed that the f-string of line 28 embeds. *)
Definition LF : string := String (ascii_of_nat 10) EmptyString.

(** [str z] is the decimal rendering an f-string gives an [int]. *)
Definition str (z : Z) : string := NilZero.string_of_int (Z.to_int z).

(** ** Python values, exceptions, outcomes *)

(** The values a [sys] attribute may hold, as far as truthiness goes. *)
Inductive pyval : Type :=
| PyNone
| PyBool (b : bool)
| PyInt (z : Z)
| PyStr (s : string).

Definition truthy (v : pyval) : bool :=
  match v with
  | PyNone => false
  | PyBool b => b
  | PyInt z => negb (Z.eqb z 0)
  | PyStr s => negb (String.eqb s "")
  end.

(** Exceptions, by the classes the script's handlers tell apart.
    [OSError] stands for the class and all of its subclasses. *)
Inductive exn : Type :=
| OSError (errno : Z)
| KeyboardInterrupt
| EOFError
| AttributeError (attr : string)
| UnicodeEncodeError
| OtherException (what : string).

Definition isinstance_OSError (e : exn) : bool :=
  match e with OSError _ => true | _ => false end.

Definition isinstance_KeyboardInterrupt (e : exn) : bool :=
  match e with KeyboardInterrupt => true | _ => false end.

(** How a piece of code ends: it returns, it raises, or it never comes
    back ([serve_forever] on an undisturbed server). *)
Inductive result (A : Type) : Type :=
| Ret (a : A)
| Raise (e : exn)
| Forever.
Arguments Ret {A} a.
Arguments Raise {A} e.
Arguments Forever {A}.

(** ** The world the script acts on *)

(** What [os.path.exists] can find at a path. *)
Inductive node : Type := RegularFile | Directory.

(** The calls the script makes into the runtime, in the order made. *)
Inductive event : Type :=
| Chdir (path : string)
| Exists (path : string)
| Print (text : string)
| Input (prompt : string)
| Bind (host : string) (port : Z)
| BrowserOpen (url : string)
| ServeForever (host : string) (port : Z)
| ServerClose (host : string) (port : Z).

Record World : Type := mkWorld {
  cwd : string;                      (* the process's working directory *)
  sockets : list (string * Z);       (* listening sockets the process holds *)
  trace : list event                 (* calls made so far, oldest first *)
}.

Definition log (ev : event) (w : World) : World :=
  mkWorld (cwd w) (sockets w) (trace w ++ [ev]).

(** The [sys] module, as far as [get_base_dir] inspects it: an attribute
    is absent ([None]) or holds a value. *)
Record SysModule : Type := mkSys {
  sys_frozen : option pyval;
  sys__MEIPASS : option string
}.

(** The environment of one run.  Each answer may depend on the calls
    made before it (the first argument), so that the same call can
    succeed once and fail later. *)
Record Env : Type := mkEnv {
  sys : SysModule;
  __file__ : string;
  (* os.path.abspath, which reads the working directory, and os.path.dirname *)
  os_path_abspath : string -> string -> string;
  os_path_dirname : string -> string;
  (* os.chdir: None when it succeeds *)
  chdir_answer : list event -> string -> option exn;
  (* the filesystem: what a path names, seen from a working directory *)
  fs : list event -> string -> string -> option node;
  (* print: None when the text was written *)
  print_answer : list event -> string -> option exn;
  (* input: the line read, or the exception raised *)
  input_answer : list event -> string -> exn + string;
  (* socket creation, bind and listen of TCPServer: None when bound *)
  bind_answer : list event -> string -> Z -> option exn;
  (* webbrowser.open: its boolean, or the exception raised *)
  browser_answer : list event -> string -> exn + bool;
  (* serve_forever on the listener at host, port *)
  serve_answer : list event -> string -> Z -> result unit
}.

(** ** The monad of the script: state and exceptions *)

Definition M (A : Type) : Type := World -> result A * World.

Definition ret {A} (a : A) : M A := fun w => (Ret a, w).

Definition raise {A} (e : exn) : M A := fun w => (Raise e, w).

Definition bind {A B} (m : M A) (k : A -> M B) : M B :=
  fun w =>
    match m w with
    | (Ret a, w') => k a w'
    | (Raise e, w') => (Raise e, w')
    | (Forever, w') => (Forever, w')
    end.

(** [try: body / except C: handler], where [catches] is [isinstance(_, C)]. *)
Definition try_except {A} (body : M A) (catches : exn -> bool) (handler : M A) : M A :=
  fun w =>
    match body w with
    | (Raise e, w') => if catches e then handler w' else (Raise e, w')
    | other => other
    end.

(** [try: body / finally: cleanup].  The cleanup runs when the body
    returns or raises; an exception of the cleanup replaces the body's. *)
Definition try_finally {A} (body : M A) (cleanup : M unit) : M A :=
  fun w =>
    match body w with
    | (Forever, w') => (Forever, w')
    | (r, w') =>
        match cleanup w' with
        | (Ret _, w'') => (r, w'')
        | (Raise e, w'') => (Raise e, w'')
        | (Forever, w'') => (Forever, w'')
        end
    end.

Declare Scope py_scope.
Delimit Scope py_scope with py.
Notation "x <- m ;; k" := (bind m (fun x => k))
  (at level 100, m at next level, right associativity) : py_scope.
Notation "m ;; k" := (bind m (fun _ => k))
  (at level 100, right associativity) : py_scope.
Local Open Scope py_scope.

(** The listener object: the address it is bound to and the directory
    its request handlers are constructed with (line 37). *)
Record TCPServer : Type := mkServer {
  server_address : string * Z;
  handler_directory : string
}.

(** The number of candidate ports from [port] up to the bound of the
    port loop: what the loop counts down. *)
Definition candidates_left (port : Z) : nat := Z.to_nat (PORT + 20 - port).
Arguments candidates_left : simpl never.

(** ** The library calls of the script *)

Section Script.

Variable env : Env.

(** [getattr(sys, "frozen", False)]: the attribute, or the default. *)
Definition getattr_sys_frozen (default : pyval) : pyval :=
  match sys_frozen (sys env) with
  | Some v => v
  | None => default
  end.

(** [hasattr(sys, "_MEIPASS")]. *)
Definition hasattr_sys__MEIPASS : bool :=
  match sys__MEIPASS (sys env) with
  | Some _ => true
  | None => false
  end.

(** [sys._MEIPASS]: a plain attribute access, which raises when the
    attribute is absent. *)
Definition attr_sys__MEIPASS : M string :=
  match sys__MEIPASS (sys env) with
  | Some d => ret d
  | None => raise (AttributeError "_MEIPASS")
  end.

(** [os.chdir(path)]: on success the working directory is the directory
    that [path] names, kept here under that name ([os.getcwd] would give
    its physical absolute name); on failure it stays. *)
Definition os_chdir (path : string) : M unit :=
  fun w =>
    match chdir_answer env (trace w) path with
    | None => (Ret tt, mkWorld path (sockets w) (trace w ++ [Chdir path]))
    | Some e => (Raise e, log (Chdir path) w)
    end.

(** [os.path.exists]: true for whatever the path names, file or not. *)
Definition os_path_exists (path : string) : M bool :=
  fun w =>
    (Ret (match fs env (trace w) (cwd w) path with
          | Some _ => true
          | None => false
          end),
     log (Exists path) w).

(** [print(text)].  The call is recorded whether or not the write
    succeeds. *)
Definition print (text : string) : M unit :=
  fun w =>
    match print_answer env (trace w) text with
    | None => (Ret tt, log (Print text) w)
    | Some e => (Raise e, log (Print text) w)
    end.

(** [input(prompt)]: shows the prompt and blocks for one line. *)
Definition input (prompt : string) : M string :=
  fun w =>
    match input_answer env (trace w) prompt with
    | inr line => (Ret line, log (Input prompt) w)
    | inl e => (Raise e, log (Input prompt) w)
    end.

(** [socketserver.TCPServer(address, handler)]: the constructor binds and
    listens; when that fails it closes its socket and re-raises, so a
    failed construction leaves nothing behind. *)
Definition TCPServer_new (address : string * Z) (directory : string) : M TCPServer :=
  fun w =>
    match bind_answer env (trace w) (fst address) (snd address) with
    | None =>
        (Ret (mkServer address directory),
         mkWorld (cwd w) (address :: sockets w)
                 (trace w ++ [Bind (fst address) (snd address)]))
    | Some e => (Raise e, log (Bind (fst address) (snd address)) w)
    end.

(** [webbrowser.open(url)]; the script ignores the boolean. *)
Definition webbrowser_open (url : string) : M bool :=
  fun w =>
    match browser_answer env (trace w) url with
    | inr b => (Ret b, log (BrowserOpen url) w)
    | inl e => (Raise e, log (BrowserOpen url) w)
    end.

(** [httpd.serve_forever()]: returns, raises, or goes on for ever. *)
Definition serve_forever (httpd : TCPServer) : M unit :=
  fun w =>
    let '(host, port) := server_address httpd in
    (serve_answer env (trace w) host port, log (ServeForever host port) w).

(** Removing one socket from those the process holds. *)
Definition address_eqb (a b : string * Z) : bool :=
  String.eqb (fst a) (fst b) && Z.eqb (snd a) (snd b).

Fixpoint release (a : string * Z) (l : list (string * Z)) : list (string * Z) :=
  match l with
  | [] => []
  | b :: l' => if address_eqb a b then l' else b :: release a l'
  end.

(** [httpd.server_close()]: closes the listening socket. *)
Definition server_close (httpd : TCPServer) : M unit :=
  fun w =>
    let '(host, port) := server_address httpd in
    (Ret tt,
     mkWorld (cwd w) (release (host, port) (sockets w))
             (trace w ++ [ServerClose host port])).

(** ** get_base_dir (lines 11-14) *)

Definition get_base_dir : M string :=
  fun w =>
    if truthy (getattr_sys_frozen (PyBool false)) && hasattr_sys__MEIPASS
    then attr_sys__MEIPASS w
    else ret (os_path_dirname env (os_path_abspath env (cwd w) (__file__ env))) w.

(** ** The port loop of run_server (lines 33-41)

    [while port < PORT + 20: try: httpd = TCPServer(...); break
     except OSError: port += 1].  The loop state is [port] and [httpd];
    the result is their value when the loop is left. *)

Equations? port_loop (base_dir : string) (port : Z) (httpd : option TCPServer)
  : M (Z * option TCPServer) by wf (candidates_left port) lt :=
  port_loop base_dir port httpd with Z_lt_dec port (PORT + 20) => {
    | left _ =>
        try_except
          (h <- TCPServer_new (HOST, port) base_dir ;;
           ret (port, Some h))
          isinstance_OSError
          (port_loop base_dir (port + 1) httpd)
    | right _ => ret (port, httpd) }.
Proof. unfold candidates_left, PORT in *. lia. Qed.

(** ** run_server (lines 23-65) *)

Definition serve (httpd : TCPServer) : M unit :=
  try_finally
    (try_except (serve_forever httpd) isinstance_KeyboardInterrupt (ret tt))
    (server_close httpd).

Definition announce (base_dir : string) (port : Z) (httpd : TCPServer) : M unit :=
  let url := "http://" ++ HOST ++ ":" ++ str port ++ "/" ++ START_PAGE in
  print "===================================" ;;
  print " Local site server is running" ;;
  print "-----------------------------------" ;;
  print (" Folder: " ++ base_dir) ;;
  print (" URL:    " ++ url) ;;
  print "===================================" ;;
  print "Leave this window open while using the site." ;;
  print ("Close it to stop the server." ++ LF) ;;
  webbrowser_open url ;;
  serve httpd.

Definition allocate_and_serve (base_dir : string) : M unit :=
  ph <- port_loop base_dir PORT None ;;
  match snd ph with
  | None =>
      print "ERROR: Could not bind to a port (8000-8019)." ;;
      input "Press Enter to exit..." ;;
      ret tt
  | Some httpd => announce base_dir (fst ph) httpd
  end.

Definition run_server : M unit :=
  base_dir <- get_base_dir ;;
  os_chdir base_dir ;;
  found <- os_path_exists START_PAGE ;;
  if negb found then
    print ("ERROR: " ++ START_PAGE ++ " not found in:" ++ LF ++ base_dir) ;;
    input "Press Enter to exit..." ;;
    ret tt
  else allocate_and_serve base_dir.

End Script.

(** The script as a program: [if __name__ == "__main__": run_server()].
    The interpreter exits 0 when the call returns, and with a failure
    status when an exception reaches the top level (130 stands for the
    death by SIGINT of an unhandled KeyboardInterrupt); a run that never
    ends has no status. *)
Definition exit_status (r : result unit) : option Z :=
  match r with
  | Ret _ => Some 0
  | Raise KeyboardInterrupt => Some 130
  | Raise _ => Some 1
  | Forever => None
  end.

Definition main (env : Env) (w : World) : option Z :=
  exit_status (fst (run_server env w)).

(** ** QuietHandler (lines 16-21)

    The class derives from [http.server.SimpleHTTPRequestHandler] and
    defines two methods.  The inherited code is the library's; what the
    model keeps of it is how it reports: [send_response] calls
    [self.log_request], [send_error] calls [self.log_error], both of
    these call [self.log_message], and the stock [log_message] writes one
    line to standard error.  Constructing a handler processes the
    request (the constructor of [BaseRequestHandler] runs [handle]). *)

(** The streams a request can reach: the two of the process and the
    reply to the client. *)
Record Streams : Type := mkStreams {
  stdout : list string;
  stderr : list string;
  wfile : list string
}.

(** What the inherited code does while it processes a request. *)
Inductive step : Type :=
| Reply (data : string)                          (* self.wfile.write(data) *)
| LogRequest (code size : string)                (* self.log_request(code, size) *)
| LogError (format : string) (args : list string). (* self.log_error(format, *args) *)

(** The double quote of the format of [log_request]. *)
Definition DQUOTE : string := String (ascii_of_nat 34) EmptyString.

Section Handler.

(** A request as the server hands it over: (request, client_address, server). *)
Variable request : Type.
(** [os.getcwd()], the default of [directory]. *)
Variable os_getcwd : string.
(** The steps of the inherited request processing, for a request and
    the directory served. *)
Variable inherited : request -> string -> list step.
(** [self.requestline]; the address and date that open a log line;
    [format % args]. *)
Variable requestline : request -> string.
Variable log_prefix : request -> string.
Variable percent : string -> list string -> string.

(** A [log_message] method: self, format, args. *)
Definition log_hook : Type := request -> string -> list string -> Streams -> Streams.

(** [BaseHTTPRequestHandler.log_message]: one line on standard error. *)
Definition BaseHTTPRequestHandler_log_message : log_hook :=
  fun self format args st =>
    mkStreams (stdout st)
              (stderr st ++ [(log_prefix self ++ percent format args ++ LF)%string])
              (wfile st).

(** [BaseHTTPRequestHandler.log_request] and [log_error], inherited as
    they are; [log_message] is the method found on the class of [self]. *)
Definition BaseHTTPRequestHandler_log_request (log_message : log_hook)
    (self : request) (code size : string) : Streams -> Streams :=
  log_message self (DQUOTE ++ "%s" ++ DQUOTE ++ " %s %s")%string
              [requestline self; code; size].

Definition BaseHTTPRequestHandler_log_error (log_message : log_hook)
    (self : request) (format : string) (args : list string) : Streams -> Streams :=
  log_message self format args.

Fixpoint perform (log_message : log_hook) (self : request) (steps : list step)
    (st : Streams) : Streams :=
  match steps with
  | [] => st
  | Reply data :: rest =>
      perform log_message self rest
        (mkStreams (stdout st) (stderr st) (wfile st ++ [data]))
  | LogRequest code size :: rest =>
      perform log_message self rest
        (BaseHTTPRequestHandler_log_request log_message self code size st)
  | LogError format args :: rest =>
      perform log_message self rest
        (BaseHTTPRequestHandler_log_error log_message self format args st)
  end.

(** [SimpleHTTPRequestHandler.__init__(self, *args, directory=None)]. *)
Definition SimpleHTTPRequestHandler___init__ (log_message : log_hook)
    (args : request) (directory : option string) : Streams -> Streams :=
  let directory := match directory with
                   | None => os_getcwd
                   | Some d => d
                   end in
  perform log_message args (inherited args directory).

(** [QuietHandler.log_message]: [pass]. *)
Definition QuietHandler_log_message : log_hook :=
  fun self format args st => st.

(** [QuietHandler.__init__]: the call of [super().__init__] with the same
    positional arguments and [directory=directory], on an instance of
    [QuietHandler]. *)
Definition QuietHandler___init__ (args : request) (directory : option string)
    : Streams -> Streams :=
  SimpleHTTPRequestHandler___init__ QuietHandler_log_message args directory.

(** The handler factory of line 37: the lambda that passes its arguments
    on to [QuietHandler] with [directory=base_dir]. *)
Definition handler (base_dir : string) (args : request) : Streams -> Streams :=
  QuietHandler___init__ args (Some base_dir).

(** The stock handler on the same directory, to compare with. *)
Definition stock_handler (base_dir : string) (args : request) : Streams -> Streams :=
  SimpleHTTPRequestHandler___init__ BaseHTTPRequestHandler_log_message args (Some base_dir).

End Handler.

(** ** Vocabulary for the statements *)

(** The ports on which a trace attempted to bind, in order. *)
Fixpoint bind_attempts (t : list event) : list Z :=
  match t with
  | [] => []
  | Bind _ p :: t' => p :: bind_attempts t'
  | _ :: t' => bind_attempts t'
  end.

(** The ports on which a trace entered the serve loop. *)
Fixpoint serve_calls (t : list event) : list Z :=
  match t with
  | [] => []
  | ServeForever _ p :: t' => p :: serve_calls t'
  | _ :: t' => serve_calls t'
  end.

(** [n] consecutive ports from [p] upwards. *)
Fixpoint ports_from (p : Z) (n : nat) : list Z :=
  match n with
  | O => []
  | S n' => p :: ports_from (p + 1) n'
  end.

(** The URL of line 48 and the banner of lines 49-56. *)
Definition site_url (port : Z) : string :=
  "http://" ++ HOST ++ ":" ++ str port ++ "/" ++ START_PAGE.

Definition banner (base_dir : string) (port : Z) : list event :=
  [ Print "===================================";
    Print " Local site server is running";
    Print "-----------------------------------";
    Print (" Folder: " ++ base_dir);
    Print (" URL:    " ++ site_url port);
    Print "===================================";
    Print "Leave this window open while using the site.";
    Print ("Close it to stop the server." ++ LF) ].

Section Environments.

Variable env : Env.

(** Standard output accepts every line. *)
Definition console_ok : Prop :=
  forall h text, print_answer env h text = None.

(** The user answers the prompt with a line. *)
Definition acknowledged : Prop :=
  forall h prompt, exists line, input_answer env h prompt = inr line.

(** [os.chdir d] succeeds: [d] is a directory the process may enter. *)
Definition enterable (d : string) : Prop :=
  forall h, chdir_answer env h d = None.

(** Directory [d] has, or lacks, an entry called [name]. *)
Definition has_entry (d name : string) : Prop :=
  forall h, fs env h d name <> None.

Definition lacks_entry (d name : string) : Prop :=
  forall h, fs env h d name = None.

(** Binding the loopback port [p] fails with an OS-level error. *)
Definition occupied (p : Z) : Prop :=
  forall h, exists e, bind_answer env h HOST p = Some e /\ isinstance_OSError e = true.

(** Binding the loopback port [p] succeeds. *)
Definition free (p : Z) : Prop :=
  forall h, bind_answer env h HOST p = None.

(** The browser call comes back (with whatever boolean). *)
Definition browser_returns : Prop :=
  forall h url, exists b, browser_answer env h url = inr b.

End Environments.

(** The world a listener leaves behind once the serve loop is over. *)
Definition served_and_closed (httpd : TCPServer) (w : World) : World :=
  mkWorld (cwd w)
    (release (server_address httpd) (sockets w))
    (trace w ++ [ServeForever (fst (server_address httpd)) (snd (server_address httpd));
                 ServerClose (fst (server_address httpd)) (snd (server_address httpd))]).

(** The ports the loop has tried when it stops at [p]. *)
Definition probed (p : Z) : list Z := ports_from PORT (S (Z.to_nat (p - PORT))).

(** The calls of a run that finds the start page, walks up to the free
    port [p] and prints the banner. *)
Definition startup_trace (d : string) (p : Z) : list event :=
  ([Chdir d; Exists START_PAGE] ++ map (Bind HOST) (probed p) ++ banner d p)%list.

(** ** What a run may change: vocabulary *)

(** The process state a claim can be about: directory and sockets. *)
Definition at_state (c : string) (s : list (string * Z)) (w : World) : Prop :=
  cwd w = c /\ sockets w = s.

(** A computation that changes neither. *)
Definition quiet {A} (m : M A) : Prop :=
  forall w, cwd (snd (m w)) = cwd w /\ sockets (snd (m w)) = sockets w.

(** From state [c], [s] the computation ends in a world satisfying [Q]. *)
Definition ensures {A} (c : string) (s : list (string * Z))
    (Q : World -> Prop) (m : M A) : Prop :=
  forall w, at_state c s w -> Q (snd (m w)).

(** The frozen flag is set: the attribute is there and is truthy. *)
Definition frozen_flag_set (env : Env) : Prop :=
  exists v, sys_frozen (sys env) = Some v /\ truthy v = true.

(** The absolute directory of the program's own source file. *)
Definition source_dir (env : Env) (w : World) : string :=
  os_path_dirname env (os_path_abspath env (cwd w) (__file__ env)).

(** The run gets as far as the serve loop, on port [p]. *)
Definition reaches_serving (env : Env) (d : string) (p : Z) : Prop :=
  enterable env d /\ has_entry env d START_PAGE /\ console_ok env /\
  PORT <= p < PORT + 20 /\ (forall q, PORT <= q < p -> occupied env q) /\
  free env p /\ browser_returns env.



(** The directories a trace asked [os.chdir] for, in order. *)
Fixpoint chdir_calls (t : list event) : list string :=
  match t with
  | [] => []
  | Chdir d :: t' => d :: chdir_calls t'
  | _ :: t' => chdir_calls t'
  end.

(** A trace that asks for no change of directory. *)
Definition no_chdir (t : list event) : Prop := chdir_calls t = [].

(** ** Sample machines, for the witnesses *)

(** Index of the last slash of a path, if any. *)
Fixpoint last_slash (s : string) (i : nat) (found : option nat) : option nat :=
  match s with
  | EmptyString => found
  | String c s' =>
      last_slash s' (S i) (if Ascii.eqb c "/" then Some i else found)
  end.

(** [os.path.dirname] on POSIX paths without repeated slashes. *)
Definition posix_dirname (p : string) : string :=
  match last_slash p 0 None with
  | None => ""
  | Some O => "/"
  | Some i => substring 0 i p
  end.

(** [os.path.abspath] on POSIX paths that need no normalisation. *)
Definition posix_abspath (cwd p : string) : string :=
  match p with
  | String "/" _ => p
  | _ => (cwd ++ "/" ++ p)%string
  end.

(** A machine with the script at /srv/site/server.py.  [page] is what
    /srv/site/main.html names, [busy] tells the taken ports, [browser]
    and [served] are the outcomes of the browser call and of the serve
    loop; the console works and the user presses Enter. *)
Definition machine (module_sys : SysModule) (page : option node) (busy : Z -> bool)
    (browser : exn + bool) (served : result unit) : Env :=
  mkEnv module_sys "/srv/site/server.py" posix_abspath posix_dirname
    (fun _ _ => None)
    (fun _ dir name =>
       if String.eqb dir "/srv/site" && String.eqb name "main.html"
       then page else None)
    (fun _ _ => None)
    (fun _ _ => inr ""%string)
    (fun _ _ p => if busy p then Some (OSError 98) else None)
    (fun _ _ => browser)
    (fun _ _ _ => served).

Definition plain_sys : SysModule := mkSys None None.

Definition bundled_sys : SysModule :=
  mkSys (Some (PyBool true)) (Some "/tmp/_MEI40122"%string).

(** A fresh process started from the user's home directory. *)
Definition home : World := mkWorld "/home/user" [] [].

(** Port 8000 is taken by an earlier instance; Ctrl-C ends the serving. *)
Definition second_instance : Env :=
  machine plain_sys (Some RegularFile) (Z.eqb 8000) (inr true) (Raise KeyboardInterrupt).

(** Every port of the range is taken. *)
Definition crowded : Env :=
  machine plain_sys (Some RegularFile) (fun _ => true) (inr true) Forever.

(** The start page is absent. *)
Definition empty_site : Env :=
  machine plain_sys None (fun _ => false) (inr true) Forever.

(** main.html is a directory. *)
Definition directory_site : Env :=
  machine plain_sys (Some Directory) (fun _ => false) (inr true) (Raise KeyboardInterrupt).

(** Ctrl-C arrives while the browser is being launched. *)
Definition interrupted_launch : Env :=
  machine plain_sys (Some RegularFile) (fun _ => false) (inl KeyboardInterrupt) Forever.

(** A PyInstaller bundle unpacked to /tmp/_MEI40122, without the page. *)
Definition bundle : Env :=
  machine bundled_sys None (fun _ => false) (inr true) Forever.

(** A console that cannot encode the folder line of the banner. *)
Definition narrow_console : Env :=
  mkEnv plain_sys "/srv/site/server.py" posix_abspath posix_dirname
    (fun _ _ => None)
    (fun _ _ _ => Some RegularFile)
    (fun _ text => if String.prefix " Folder: " text then Some UnicodeEncodeError else None)
    (fun _ _ => inr ""%string)
    (fun _ _ _ => None)
    (fun _ _ => inr true)
    (fun _ _ _ => Forever).

(** ** Traces of arbitrary runs: vocabulary *)

(** Events that are neither a bind nor an entry into the serve loop. *)
Definition silent (t : list event) : Prop :=
  bind_attempts t = [] /\ serve_calls t = [].

(** What may follow the port loop once it has a listener on [q]: no
    further bind, and the serve loop entered at most once, on [q]. *)
Definition after_listener (q : Z) (t : list event) : Prop :=
  bind_attempts t = [] /\ (serve_calls t = [] \/ serve_calls t = [q]).

(** The computation only appends to the trace, and what it appends
    satisfies [P]. *)
Definition emits {A} (P : list event -> Prop) (m : M A) : Prop :=
  forall w, exists t, trace (snd (m w)) = (trace w ++ t)%list /\ P t.

(** ** More sample machines *)

(** A machine like [machine], with every answer chosen. *)
Definition machine_with (chdir : option exn) (page : option node)
    (typed : exn + string) (bound : Z -> option exn)
    (browser : exn + bool) (served : result unit) : Env :=
  mkEnv plain_sys "/srv/site/server.py" posix_abspath posix_dirname
    (fun _ _ => chdir)
    (fun _ dir name =>
       if String.eqb dir "/srv/site" && String.eqb name "main.html"
       then page else None)
    (fun _ _ => None)
    (fun _ _ => typed)
    (fun _ _ p => bound p)
    (fun _ _ => browser)
    (fun _ _ _ => served).

(** The site directory cannot be entered. *)
Definition locked_out : Env :=
  machine_with (Some (OSError 13)) (Some RegularFile) (inr ""%string)
    (fun _ => None) (inr true) Forever.

(** No start page, and standard input is at end of file. *)
Definition no_stdin : Env :=
  machine_with None None (inl EOFError)
    (fun _ => None) (inr true) Forever.

(** Port 8000 is taken and Ctrl-C arrives while 8001 is being bound. *)
Definition interrupted_bind : Env :=
  machine_with None (Some RegularFile) (inr ""%string)
    (fun p => if Z.eqb p 8000 then Some (OSError 98)
              else if Z.eqb p 8001 then Some KeyboardInterrupt else None)
    (inr true) Forever.

(** The serve loop dies of an error of its own. *)
Definition crashing_loop : Env :=
  machine_with None (Some RegularFile) (inr ""%string)
    (fun _ => None) (inr true) (Raise (OtherException "ValueError")).

(** No browser could be opened; the server is left running. *)
Definition no_browser : Env :=
  machine_with None (Some RegularFile) (inr ""%string)
    (fun _ => None) (inr false) Forever.

(** A process started somewhere else. *)
Definition elsewhere : World := mkWorld "/tmp" [] [].

(** ** Basic facts *)

Local Open Scope list_scope.

Lemma bind_attempts_app (t u : list event) :
  bind_attempts (t ++ u) = bind_attempts t ++ bind_attempts u.
Proof.
  induction t as [|ev t IH]; simpl; [reflexivity|].
  destruct ev; simpl; rewrite IH; reflexivity.
Qed.

Lemma serve_calls_app (t u : list event) :
  serve_calls (t ++ u) = serve_calls t ++ serve_calls u.
Proof.
  induction t as [|ev t IH]; simpl; [reflexivity|].
  destruct ev; simpl; rewrite IH; reflexivity.
Qed.

Lemma bind_attempts_binds (host : string) (ps : list Z) :
  bind_attempts (map (Bind host) ps) = ps.
Proof. induction ps as [|p ps IH]; simpl; congruence. Qed.

Lemma serve_calls_binds (host : string) (ps : list Z) :
  serve_calls (map (Bind host) ps) = [].
Proof. induction ps as [|p ps IH]; simpl; congruence. Qed.

Lemma address_eqb_refl (a : string * Z) : address_eqb a a = true.
Proof.
  unfold address_eqb. rewrite String.eqb_refl, Z.eqb_refl. reflexivity.
Qed.

Lemma release_head (a : string * Z) (l : list (string * Z)) :
  release a (a :: l) = l.
Proof. simpl. rewrite address_eqb_refl. reflexivity. Qed.

Lemma port_loop_step (env : Env) (d : string) (p : Z) (h : option TCPServer) :
  port_loop env d p h =
  if Z_lt_dec p (PORT + 20)
  then try_except
         (s <- TCPServer_new env (HOST, p) d ;; ret (p, Some s))
         isinstance_OSError
         (port_loop env d (p + 1) h)
  else ret (p, h).
Proof.
  rewrite port_loop_equation_1.
  destruct (Z_lt_dec p (PORT + 20)); reflexivity.
Qed.

(** A free port ends the loop with a listener on it. *)
Lemma port_loop_free (env : Env) (d : string) (p : Z) (h : option TCPServer) (w : World) :
  p < PORT + 20 -> free env p ->
  port_loop env d p h w =
  (Ret (p, Some (mkServer (HOST, p) d)),
   mkWorld (cwd w) ((HOST, p) :: sockets w) (trace w ++ [Bind HOST p])).
Proof.
  intros Hlt Hfree. rewrite port_loop_step.
  destruct (Z_lt_dec p (PORT + 20)) as [_|Hn]; [|contradiction].
  unfold try_except, bind, TCPServer_new, ret. simpl.
  rewrite Hfree. reflexivity.
Qed.

(** An occupied port sends the loop on to the next one. *)
Lemma port_loop_occupied (env : Env) (d : string) (p : Z) (h : option TCPServer) (w : World) :
  p < PORT + 20 -> occupied env p ->
  port_loop env d p h w = port_loop env d (p + 1) h (log (Bind HOST p) w).
Proof.
  intros Hlt Hocc. rewrite port_loop_step.
  destruct (Z_lt_dec p (PORT + 20)) as [_|Hn]; [|contradiction].
  unfold try_except, bind, TCPServer_new, ret. simpl.
  destruct (Hocc (trace w)) as [e [-> He]]. rewrite He. reflexivity.
Qed.

Lemma port_loop_finds (env : Env) (d : string) (n : nat) :
  forall (p : Z) (h : option TCPServer) (w : World),
  (forall q, p <= q < p + Z.of_nat n -> occupied env q) ->
  free env (p + Z.of_nat n) ->
  p + Z.of_nat n < PORT + 20 ->
  port_loop env d p h w =
  (Ret (p + Z.of_nat n, Some (mkServer (HOST, p + Z.of_nat n) d)),
   mkWorld (cwd w) ((HOST, p + Z.of_nat n) :: sockets w)
           (trace w ++ map (Bind HOST) (ports_from p (S n)))).
Proof.
  induction n as [|n IH]; intros p h w Hocc Hfree Hlt.
  - simpl Z.of_nat in *. rewrite Z.add_0_r in *.
    apply port_loop_free; assumption.
  - rewrite port_loop_occupied by (try apply Hocc; lia).
    replace (p + Z.of_nat (S n)) with (p + 1 + Z.of_nat n) in * by lia.
    rewrite IH; try assumption.
    + simpl. rewrite <- app_assoc. reflexivity.
    + intros q Hq. apply Hocc. lia.
Qed.

Lemma port_loop_exhausts (env : Env) (d : string) (n : nat) :
  forall (p : Z) (h : option TCPServer) (w : World),
  p + Z.of_nat n = PORT + 20 ->
  (forall q, p <= q < PORT + 20 -> occupied env q) ->
  port_loop env d p h w =
  (Ret (PORT + 20, h),
   mkWorld (cwd w) (sockets w) (trace w ++ map (Bind HOST) (ports_from p n))).
Proof.
  induction n as [|n IH]; intros p h w Hp Hocc.
  - rewrite port_loop_step.
    destruct (Z_lt_dec p (PORT + 20)) as [Hlt|_]; [lia|].
    simpl. rewrite app_nil_r. unfold ret. destruct w.
    replace p with (PORT + 20) by lia. reflexivity.
  - rewrite port_loop_occupied by (try apply Hocc; lia).
    rewrite IH.
    + simpl. rewrite <- app_assoc. reflexivity.
    + lia.
    + intros q Hq. apply Hocc. lia.
Qed.

(** Normalises the worlds and traces that symbolic execution leaves. *)
Ltac tidy :=
  unfold log; cbn [cwd sockets trace fst snd];
  repeat rewrite <- app_assoc; cbn [app].

(** [get_base_dir] only inspects the runtime: the world is untouched. *)
Lemma get_base_dir_pure (env : Env) (w : World) :
  snd (get_base_dir env w) = w.
Proof.
  unfold get_base_dir, attr_sys__MEIPASS, ret, raise.
  destruct (truthy _ && _); [destruct (sys__MEIPASS (sys env))|]; reflexivity.
Qed.

Lemma get_base_dir_run (env : Env) (w : World) (d : string) :
  fst (get_base_dir env w) = Ret d -> get_base_dir env w = (Ret d, w).
Proof.
  intros H. pose proof (get_base_dir_pure env w) as Hw.
  destruct (get_base_dir env w) as [r w']. simpl in *. congruence.
Qed.

(** With the start page in place the run goes on to the port loop. *)
Lemma startup_passes (env : Env) (w : World) (d : string) :
  fst (get_base_dir env w) = Ret d ->
  enterable env d -> has_entry env d START_PAGE ->
  run_server env w =
  allocate_and_serve env d
    (mkWorld d (sockets w) (trace w ++ [Chdir d; Exists START_PAGE])).
Proof.
  intros Hd Hcd Hpage. unfold run_server, bind at 1.
  rewrite (get_base_dir_run _ _ _ Hd).
  unfold bind at 1, os_chdir. rewrite Hcd.
  unfold bind at 1, os_path_exists. cbn [cwd trace sockets log].
  specialize (Hpage (trace w ++ [Chdir d])).
  destruct (fs env (trace w ++ [Chdir d]) d START_PAGE); [|contradiction].
  cbn [negb]. tidy. reflexivity.
Qed.

(** Without it the run prints the error, waits and returns. *)
Lemma startup_fails (env : Env) (w : World) (d : string) :
  fst (get_base_dir env w) = Ret d ->
  enterable env d -> lacks_entry env d START_PAGE ->
  console_ok env -> acknowledged env ->
  run_server env w =
  (Ret tt,
   mkWorld d (sockets w)
     (trace w ++
      [Chdir d; Exists START_PAGE;
       Print ("ERROR: " ++ START_PAGE ++ " not found in:" ++ LF ++ d)%string;
       Input "Press Enter to exit..."])).
Proof.
  intros Hd Hcd Hpage Hout Hack. unfold run_server, bind at 1.
  rewrite (get_base_dir_run _ _ _ Hd).
  unfold bind at 1, os_chdir. rewrite Hcd.
  unfold bind at 1, os_path_exists. cbn [cwd trace sockets log].
  rewrite Hpage. cbn [negb].
  unfold bind, print, input, ret, log. cbn [cwd trace sockets].
  rewrite Hout.
  match goal with |- context [input_answer env ?h ?p] =>
    destruct (Hack h p) as [line ->] end.
  tidy. reflexivity.
Qed.

(** When every port of the range is taken the run prints the error,
    waits and returns. *)
Lemma allocation_fails (env : Env) (w : World) (d : string) :
  (forall p, PORT <= p < PORT + 20 -> occupied env p) ->
  console_ok env -> acknowledged env ->
  allocate_and_serve env d w =
  (Ret tt,
   mkWorld (cwd w) (sockets w)
     (trace w ++ map (Bind HOST) (ports_from PORT 20) ++
      [Print "ERROR: Could not bind to a port (8000-8019).";
       Input "Press Enter to exit..."])).
Proof.
  intros Hocc Hout Hack. unfold allocate_and_serve, bind at 1.
  rewrite (port_loop_exhausts env d 20) by (assumption || reflexivity).
  cbn [snd fst].
  unfold bind, print, input, ret, log. cbn [cwd trace sockets].
  rewrite Hout.
  match goal with |- context [input_answer env ?h ?p] =>
    destruct (Hack h p) as [line ->] end.
  tidy. reflexivity.
Qed.

(** With [k] taken ports below a free one, the run reaches the banner
    with the listener on that port. *)
Lemma allocation_succeeds (env : Env) (w : World) (d : string) (k : nat) :
  (Z.of_nat k < 20) ->
  (forall p, PORT <= p < PORT + Z.of_nat k -> occupied env p) ->
  free env (PORT + Z.of_nat k) ->
  allocate_and_serve env d w =
  announce env d (PORT + Z.of_nat k) (mkServer (HOST, PORT + Z.of_nat k) d)
    (mkWorld (cwd w) ((HOST, PORT + Z.of_nat k) :: sockets w)
       (trace w ++ map (Bind HOST) (ports_from PORT (S k)))).
Proof.
  intros Hk Hocc Hfree. unfold allocate_and_serve, bind at 1.
  rewrite (port_loop_finds env d k) by (assumption || lia).
  reflexivity.
Qed.

(** On a working console the banner comes out whole, and the browser
    call follows. *)
Lemma announce_prints (env : Env) (d : string) (p : Z) (httpd : TCPServer) (w : World) :
  console_ok env ->
  announce env d p httpd w =
  (webbrowser_open env (site_url p) ;; serve env httpd)%py
    (mkWorld (cwd w) (sockets w) (trace w ++ banner d p)).
Proof.
  intros Hout. unfold announce.
  repeat (unfold bind at 1, print at 1; rewrite Hout; tidy).
  reflexivity.
Qed.

(** Lines 60-65 by the way [serve_forever] ends. *)
Lemma serve_cases (env : Env) (httpd : TCPServer) (w : World) :
  serve env httpd w =
  match serve_answer env (trace w) (fst (server_address httpd)) (snd (server_address httpd)) with
  | Ret _ => (Ret tt, served_and_closed httpd w)
  | Raise e =>
      (if isinstance_KeyboardInterrupt e then Ret tt else Raise e,
       served_and_closed httpd w)
  | Forever =>
      (Forever,
       log (ServeForever (fst (server_address httpd)) (snd (server_address httpd))) w)
  end.
Proof.
  unfold serve, try_finally, try_except, serve_forever, server_close, served_and_closed.
  destruct httpd as [[host port] dir]. cbn [server_address fst snd].
  destruct (serve_answer env (trace w) host port) as [[]|e|].
  - tidy. reflexivity.
  - destruct (isinstance_KeyboardInterrupt e); unfold ret; tidy; reflexivity.
  - reflexivity.
Qed.

(** Whenever the serve phase of lines 60-65 ends, by return or by any
    exception, the listener has been closed. *)
Lemma serve_closes_on_exit (env : Env) (httpd : TCPServer) (w : World) :
  fst (serve env httpd w) <> Forever ->
  snd (serve env httpd w) = served_and_closed httpd w.
Proof.
  rewrite serve_cases.
  destruct (serve_answer env (trace w) _ _) as [[]|e|]; simpl; congruence.
Qed.

Lemma run_reaches_banner (env : Env) (w : World) (d : string) (p : Z) :
  fst (get_base_dir env w) = Ret d ->
  enterable env d -> has_entry env d START_PAGE -> console_ok env ->
  PORT <= p < PORT + 20 ->
  (forall q, PORT <= q < p -> occupied env q) -> free env p ->
  run_server env w =
  (webbrowser_open env (site_url p) ;; serve env (mkServer (HOST, p) d))%py
    (mkWorld d ((HOST, p) :: sockets w) (trace w ++ startup_trace d p)).
Proof.
  intros Hd Hcd Hpage Hout Hp Hocc Hfree.
  rewrite (startup_passes env w d) by assumption.
  rewrite (allocation_succeeds env _ d (Z.to_nat (p - PORT)));
    rewrite ?Z2Nat.id by lia;
    replace (PORT + (p - PORT)) with p by lia; try assumption; try lia.
  rewrite announce_prints by assumption. unfold startup_trace, probed.
  tidy. reflexivity.
Qed.

Lemma run_reaches_serve (env : Env) (w : World) (d : string) (p : Z) :
  fst (get_base_dir env w) = Ret d ->
  enterable env d -> has_entry env d START_PAGE -> console_ok env ->
  PORT <= p < PORT + 20 ->
  (forall q, PORT <= q < p -> occupied env q) -> free env p ->
  browser_returns env ->
  run_server env w =
  serve env (mkServer (HOST, p) d)
    (mkWorld d ((HOST, p) :: sockets w)
       (trace w ++ startup_trace d p ++ [BrowserOpen (site_url p)])).
Proof.
  intros Hd Hcd Hpage Hout Hp Hocc Hfree Hbrowser.
  rewrite (run_reaches_banner env w d p) by assumption.
  unfold bind, webbrowser_open. cbn [trace].
  destruct (Hbrowser (trace w ++ startup_trace d p) (site_url p)) as [b ->].
  tidy. reflexivity.
Qed.

(** Whatever happens after the banner, no further port is tried. *)
Lemma after_banner_trace (env : Env) (url : string) (httpd : TCPServer) (w : World) :
  exists t,
    trace (snd ((webbrowser_open env url ;; serve env httpd)%py w)) =
    trace w ++ BrowserOpen url :: t /\
    bind_attempts t = [].
Proof.
  unfold bind, webbrowser_open.
  destruct (browser_answer env (trace w) url) as [e|b].
  - exists []. tidy. split; reflexivity.
  - rewrite serve_cases. tidy.
    match goal with |- context [serve_answer env ?h ?a ?b] =>
      destruct (serve_answer env h a b) as [[]|e|] end;
      unfold served_and_closed; tidy;
      eexists; (split; [reflexivity | reflexivity]).
Qed.

(** ** What a run may change: working directory and sockets *)

Section Frame.

Variable env : Env.

Lemma quiet_ret {A} (a : A) : quiet (ret a).
Proof. intros w. split; reflexivity. Qed.

Lemma quiet_print (text : string) : quiet (print env text).
Proof.
  intros w. unfold print.
  destruct (print_answer env (trace w) text); split; reflexivity.
Qed.

Lemma quiet_input (prompt : string) : quiet (input env prompt).
Proof.
  intros w. unfold input.
  destruct (input_answer env (trace w) prompt); split; reflexivity.
Qed.

Lemma quiet_exists (path : string) : quiet (os_path_exists env path).
Proof. intros w. split; reflexivity. Qed.

Lemma quiet_browser (url : string) : quiet (webbrowser_open env url).
Proof.
  intros w. unfold webbrowser_open.
  destruct (browser_answer env (trace w) url); split; reflexivity.
Qed.

Lemma quiet_bind {A B} (m : M A) (k : A -> M B) :
  quiet m -> (forall a, quiet (k a)) -> quiet (bind m k).
Proof.
  intros Hm Hk w. unfold bind. specialize (Hm w).
  destruct (m w) as [[a|e|] w1]; simpl in *; try assumption.
  destruct (Hk a w1) as [H1 H2]. destruct Hm as [H3 H4].
  split; congruence.
Qed.

Lemma ensures_after_quiet {A B} c s (Q : World -> Prop) (m : M A) (k : A -> M B) :
  quiet m ->
  (forall w, at_state c s w -> Q w) ->
  (forall a, ensures c s Q (k a)) ->
  ensures c s Q (bind m k).
Proof.
  intros Hm HQ Hk w [Hc Hs]. unfold bind.
  destruct (Hm w) as [H1 H2].
  destruct (m w) as [[a|e|] w1]; simpl in *.
  - apply Hk. split; congruence.
  - apply HQ. split; congruence.
  - apply HQ. split; congruence.
Qed.

(** The serve phase leaves the directory alone and, of the sockets,
    touches only its own listener. *)
Lemma serve_frame c s (a : string * Z) (d : string) :
  ensures c (a :: s)
    (fun w => cwd w = c /\ (sockets w = s \/ sockets w = a :: s))
    (serve env (mkServer a d)).
Proof.
  intros w [Hc Hs]. rewrite serve_cases. cbn [server_address].
  destruct (serve_answer env (trace w) (fst a) (snd a)) as [[]|e|];
    unfold served_and_closed; cbn [snd cwd sockets server_address log];
    rewrite ?Hs, ?release_head; auto.
Qed.

Lemma announce_frame c s (a : string * Z) (d : string) (p : Z) :
  ensures c (a :: s)
    (fun w => cwd w = c /\ (sockets w = s \/ sockets w = a :: s))
    (announce env d p (mkServer a d)).
Proof.
  unfold announce.
  repeat (apply ensures_after_quiet;
          [ first [apply quiet_print | apply quiet_browser]
          | intros w [Hc Hs]; auto
          | intros _ ]).
  apply serve_frame.
Qed.

(** The port loop leaves the directory alone; when it returns a
    listener, the listener's socket is the one socket it added. *)
Lemma port_loop_frame (d : string) (n : nat) :
  forall (p : Z) (w : World),
  PORT <= p -> (candidates_left p <= n)%nat ->
  cwd (snd (port_loop env d p None w)) = cwd w /\
  match fst (port_loop env d p None w) with
  | Ret (q, Some httpd) =>
      httpd = mkServer (HOST, q) d /\ PORT <= q < PORT + 20 /\
      sockets (snd (port_loop env d p None w)) = (HOST, q) :: sockets w
  | _ => sockets (snd (port_loop env d p None w)) = sockets w
  end.
Proof.
  induction n as [|n IH]; intros p w Hp Hn; rewrite port_loop_step;
    destruct (Z_lt_dec p (PORT + 20)) as [Hlt|Hge];
    try (split; reflexivity);
    try (unfold candidates_left in Hn; lia).
  unfold try_except, bind, TCPServer_new, ret. cbn [fst snd].
  destruct (bind_answer env (trace w) HOST p) as [e|].
  - destruct (isinstance_OSError e).
    + assert (Hn' : (candidates_left (p + 1) <= n)%nat)
        by (unfold candidates_left in *; lia).
      destruct (IH (p + 1) (log (Bind HOST p) w) ltac:(lia) Hn') as [H1 H2].
      split; [exact H1|].
      destruct (fst (port_loop env d (p + 1) None (log (Bind HOST p) w)))
        as [[q [httpd|]]|e'|]; exact H2.
    + split; reflexivity.
  - cbn [fst snd sockets]. split; [reflexivity|]. split; [reflexivity|].
    split; [lia|reflexivity].
Qed.

Lemma allocate_and_serve_frame (d : string) (w : World) :
  cwd (snd (allocate_and_serve env d w)) = cwd w /\
  (sockets (snd (allocate_and_serve env d w)) = sockets w \/
   exists p, PORT <= p < PORT + 20 /\
     sockets (snd (allocate_and_serve env d w)) = (HOST, p) :: sockets w).
Proof.
  assert (E : allocate_and_serve env d w =
              match port_loop env d PORT None w with
              | (Ret ph, w1) =>
                  match snd ph with
                  | None =>
                      (print env "ERROR: Could not bind to a port (8000-8019)." ;;
                       input env "Press Enter to exit..." ;; ret tt)%py w1
                  | Some httpd => announce env d (fst ph) httpd w1
                  end
              | (Raise e, w1) => (Raise e, w1)
              | (Forever, w1) => (Forever, w1)
              end).
  { unfold allocate_and_serve, bind at 1.
    destruct (port_loop env d PORT None w) as [[[q [httpd|]]|e|] w1]; reflexivity. }
  rewrite E. clear E.
  destruct (port_loop_frame d (candidates_left PORT) PORT w ltac:(lia) ltac:(lia))
    as [Hc Hs].
  destruct (port_loop env d PORT None w) as [[[q [httpd|]]|e|] w1];
    cbn [fst snd] in *.
  - destruct Hs as [-> [Hq Hs]].
    destruct (announce_frame (cwd w1) (sockets w) (HOST, q) d q w1) as [H1 H2].
    { split; [reflexivity | exact Hs]. }
    split; [congruence|]. destruct H2 as [H2|H2]; [left; exact H2|].
    right. exists q. split; assumption.
  - assert (Hq : quiet (print env "ERROR: Could not bind to a port (8000-8019)." ;;
                        input env "Press Enter to exit..." ;; ret tt)%py).
    { apply quiet_bind; [apply quiet_print|]. intros _.
      apply quiet_bind; [apply quiet_input|]. intros _. apply quiet_ret. }
    destruct (Hq w1) as [H1 H2]. split; [congruence|]. left. congruence.
  - split; [assumption|]. left. assumption.
  - split; [assumption|]. left. assumption.
Qed.

End Frame.

(** ** The base directory resolver *)

(** C7. The base directory resolver never fails: in every runtime state
    it returns a directory and leaves the world as it was.  When the
    frozen flag is set and the [_MEIPASS] attribute is present the result
    is the bundle's extraction directory; in every other case it is the
    absolute directory of the program's own source file. *)
Theorem get_base_dir_total (env : Env) (w : World) :
  (exists d, get_base_dir env w = (Ret d, w)) /\
  (forall d, frozen_flag_set env -> sys__MEIPASS (sys env) = Some d ->
             get_base_dir env w = (Ret d, w)) /\
  (~ (frozen_flag_set env /\ sys__MEIPASS (sys env) <> None) ->
   get_base_dir env w = (Ret (source_dir env w), w)).
Proof.
  unfold get_base_dir, getattr_sys_frozen, hasattr_sys__MEIPASS,
    attr_sys__MEIPASS, frozen_flag_set, source_dir, ret.
  destruct (sys_frozen (sys env)) as [v|] eqn:Hf;
    destruct (sys__MEIPASS (sys env)) as [m|] eqn:Hm;
    cbn [truthy andb]; rewrite ?andb_false_r; rewrite ?andb_true_r.
  - destruct (truthy v) eqn:Hv.
    + split; [eauto|]. split; [intros d _ [= <-]; reflexivity|].
      intros Hn. exfalso. apply Hn. split; [eauto | discriminate].
    + split; [eauto|]. split; [|reflexivity].
      intros d [v' [[= <-] Hv']]. congruence.
  - split; [eauto|]. split; [discriminate | reflexivity].
  - split; [eauto|]. split; [|reflexivity].
    intros d [v [Hv _]]. discriminate.
  - split; [eauto|]. split; [discriminate | reflexivity].
Qed.

Lemma get_base_dir_total_witness :
  get_base_dir bundle home = (Ret "/tmp/_MEI40122"%string, home) /\
  get_base_dir empty_site home = (Ret "/srv/site"%string, home).
Proof.
  split.
  - apply (get_base_dir_total bundle home).
    + exists (PyBool true). split; reflexivity.
    + reflexivity.
  - apply (get_base_dir_total empty_site home).
    intros [[v [Hv _]] _]. discriminate Hv.
Defined.

(** ** Startup validation *)

(** C3. When the resolved base directory has no entry main.html, the run
    prints an error naming the file and the directory, reads one line,
    and returns; it tries no port and holds no socket it did not hold. *)
Theorem missing_start_page_stops_the_run (env : Env) (w : World) (d : string) :
  fst (get_base_dir env w) = Ret d ->
  enterable env d ->
  lacks_entry env d START_PAGE ->
  console_ok env ->
  acknowledged env ->
  fst (run_server env w) = Ret tt /\
  trace (snd (run_server env w)) =
    trace w ++
    [Chdir d; Exists START_PAGE;
     Print ("ERROR: main.html not found in:" ++ LF ++ d)%string;
     Input "Press Enter to exit..."] /\
  bind_attempts (trace (snd (run_server env w))) = bind_attempts (trace w) /\
  sockets (snd (run_server env w)) = sockets w.
Proof.
  intros Hd Hcd Hpage Hout Hack.
  rewrite (startup_fails env w d) by assumption. cbn [fst snd trace sockets].
  repeat split. rewrite bind_attempts_app. cbn. apply app_nil_r.
Qed.

Lemma missing_start_page_stops_the_run_witness :
  fst (run_server empty_site home) = Ret tt /\
  trace (snd (run_server empty_site home)) =
    [Chdir "/srv/site"; Exists "main.html";
     Print ("ERROR: main.html not found in:" ++ LF ++ "/srv/site")%string;
     Input "Press Enter to exit..."] /\
  bind_attempts (trace (snd (run_server empty_site home))) = [] /\
  sockets (snd (run_server empty_site home)) = [].
Proof.
  apply (missing_start_page_stops_the_run empty_site home "/srv/site").
  - reflexivity.
  - intros h. reflexivity.
  - intros h. reflexivity.
  - intros h text. reflexivity.
  - intros h prompt. exists ""%string. reflexivity.
Defined.

(** C10. The validation asks only whether main.html names something: when
    it names a directory the run passes validation and goes on to the
    port loop, and with a free port, a working console and a browser call
    that comes back it enters the serve loop on that port. *)
Theorem directory_named_start_page_passes (env : Env) (w : World) (d : string) :
  fst (get_base_dir env w) = Ret d ->
  enterable env d ->
  (forall h, fs env h d START_PAGE = Some Directory) ->
  run_server env w =
    allocate_and_serve env d
      (mkWorld d (sockets w) (trace w ++ [Chdir d; Exists START_PAGE])) /\
  (forall p,
     console_ok env -> browser_returns env ->
     PORT <= p < PORT + 20 ->
     (forall q, PORT <= q < p -> occupied env q) -> free env p ->
     exists t,
       trace (snd (run_server env w)) =
         trace w ++ startup_trace d p ++ BrowserOpen (site_url p) :: ServeForever HOST p :: t).
Proof.
  intros Hd Hcd Hdir.
  assert (Hpage : has_entry env d START_PAGE).
  { intros h. rewrite Hdir. discriminate. }
  split; [apply startup_passes; assumption|].
  intros p Hout Hbrowser Hp Hocc Hfree.
  rewrite (run_reaches_serve env w d p) by assumption.
  rewrite serve_cases. cbn [server_address fst snd trace].
  match goal with |- context [serve_answer env ?h ?a ?b] =>
    destruct (serve_answer env h a b) as [[]|e|] end;
    unfold served_and_closed; tidy; eexists; reflexivity.
Qed.

Lemma directory_named_start_page_passes_witness :
  exists t,
    trace (snd (run_server directory_site home)) =
      trace home ++ startup_trace "/srv/site" 8000 ++
      BrowserOpen (site_url 8000) :: ServeForever HOST 8000 :: t.
Proof.
  apply (directory_named_start_page_passes directory_site home "/srv/site").
  - reflexivity.
  - intros h. reflexivity.
  - intros h. reflexivity.
  - intros h text. reflexivity.
  - intros h url. exists true. reflexivity.
  - unfold PORT. lia.
  - unfold PORT. intros q Hq. lia.
  - intros h. reflexivity.
Defined.

(** ** Port allocation *)

(** C1. With the start page in place, the loop tries the loopback ports
    upwards from 8000 and stops at the first one that binds: when the
    ports below [p] (8000 <= p < 8020) are taken and [p] is free, the loop
    returns a listener on [p], the ports tried by the run are exactly
    8000..p in ascending order, and the banner carries the URL with
    port [p]. *)
Theorem port_probe_first_free (env : Env) (w : World) (d : string) (p : Z) :
  fst (get_base_dir env w) = Ret d ->
  enterable env d ->
  has_entry env d START_PAGE ->
  console_ok env ->
  PORT <= p < PORT + 20 ->
  (forall q, PORT <= q < p -> occupied env q) ->
  free env p ->
  (forall w1,
     fst (port_loop env d PORT None w1) = Ret (p, Some (mkServer (HOST, p) d)) /\
     sockets (snd (port_loop env d PORT None w1)) = (HOST, p) :: sockets w1) /\
  exists t,
    trace (snd (run_server env w)) = trace w ++ t /\
    bind_attempts t = ports_from 8000 (S (Z.to_nat (p - 8000))) /\
    In (Print (" URL:    http://127.0.0.1:" ++ str p ++ "/main.html")%string) t.
Proof.
  intros Hd Hcd Hpage Hout Hp Hocc Hfree. split.
  - intros w1.
    rewrite (port_loop_finds env d (Z.to_nat (p - PORT)));
      rewrite ?Z2Nat.id by lia;
      replace (PORT + (p - PORT)) with p by lia;
      try assumption; try lia.
    split; reflexivity.
  - rewrite (run_reaches_banner env w d p) by assumption.
    destruct (after_banner_trace env (site_url p) (mkServer (HOST, p) d)
                (mkWorld d ((HOST, p) :: sockets w) (trace w ++ startup_trace d p)))
      as [t [Ht Hb]].
    exists (startup_trace d p ++ BrowserOpen (site_url p) :: t).
    rewrite Ht. cbn [trace]. split; [symmetry; apply app_assoc|]. split.
    + unfold startup_trace.
      rewrite !bind_attempts_app, bind_attempts_binds. cbn [bind_attempts app banner].
      rewrite Hb, !app_nil_r. reflexivity.
    + apply in_or_app. left. unfold startup_trace.
      apply in_or_app. right. apply in_or_app. right.
      unfold banner. cbn [In]. do 4 right. left. reflexivity.
Qed.

Lemma port_probe_first_free_witness :
  (forall w1,
     fst (port_loop second_instance "/srv/site" PORT None w1) =
       Ret (8001, Some (mkServer (HOST, 8001) "/srv/site")) /\
     sockets (snd (port_loop second_instance "/srv/site" PORT None w1)) =
       (HOST, 8001) :: sockets w1) /\
  exists t,
    trace (snd (run_server second_instance home)) = trace home ++ t /\
    bind_attempts t = [8000; 8001] /\
    In (Print " URL:    http://127.0.0.1:8001/main.html") t.
Proof.
  apply (port_probe_first_free second_instance home "/srv/site" 8001).
  - reflexivity.
  - intros h. reflexivity.
  - intros h. cbn. discriminate.
  - intros h text. reflexivity.
  - unfold PORT. lia.
  - unfold PORT. intros q Hq h. assert (q = 8000) as -> by lia.
    exists (OSError 98). split; reflexivity.
  - intros h. reflexivity.
Defined.

(** The range of the port loop, written out. *)
Example ports_of_the_range :
  ports_from PORT 20 =
  [8000; 8001; 8002; 8003; 8004; 8005; 8006; 8007; 8008; 8009;
   8010; 8011; 8012; 8013; 8014; 8015; 8016; 8017; 8018; 8019].
Proof. reflexivity. Qed.

(** C2. When binding fails with an OS-level error on each of the 20 ports
    8000..8019, the run tries exactly those ports, prints the error that
    names the range, reads one line, and returns: it never enters the
    serve loop and holds no socket it did not hold. *)
Theorem port_exhaustion_stops_the_run (env : Env) (w : World) (d : string) :
  fst (get_base_dir env w) = Ret d ->
  enterable env d ->
  has_entry env d START_PAGE ->
  (forall p, 8000 <= p < 8020 -> occupied env p) ->
  console_ok env ->
  acknowledged env ->
  fst (run_server env w) = Ret tt /\
  trace (snd (run_server env w)) =
    trace w ++ [Chdir d; Exists START_PAGE] ++
    map (Bind HOST) (ports_from 8000 20) ++
    [Print "ERROR: Could not bind to a port (8000-8019).";
     Input "Press Enter to exit..."] /\
  serve_calls (trace (snd (run_server env w))) = serve_calls (trace w) /\
  sockets (snd (run_server env w)) = sockets w.
Proof.
  intros Hd Hcd Hpage Hocc Hout Hack.
  rewrite (startup_passes env w d) by assumption.
  rewrite allocation_fails by assumption.
  cbn [fst snd trace sockets]. split; [reflexivity|].
  split; [rewrite <- app_assoc; reflexivity|]. split; [|reflexivity].
  rewrite !serve_calls_app, serve_calls_binds. cbn. rewrite !app_nil_r.
  reflexivity.
Qed.

Lemma port_exhaustion_stops_the_run_witness :
  fst (run_server crowded home) = Ret tt /\
  trace (snd (run_server crowded home)) =
    trace home ++ [Chdir "/srv/site"; Exists START_PAGE] ++
    map (Bind HOST) (ports_from 8000 20) ++
    [Print "ERROR: Could not bind to a port (8000-8019).";
     Input "Press Enter to exit..."] /\
  serve_calls (trace (snd (run_server crowded home))) = serve_calls (trace home) /\
  sockets (snd (run_server crowded home)) = sockets home.
Proof.
  apply (port_exhaustion_stops_the_run crowded home "/srv/site").
  - reflexivity.
  - intros h. reflexivity.
  - intros h. cbn. discriminate.
  - intros p Hp h. exists (OSError 98). split; reflexivity.
  - intros h text. reflexivity.
  - intros h prompt. exists ""%string. reflexivity.
Defined.

(** ** Serving and shutdown *)

(** C5. A KeyboardInterrupt raised by the serve loop is caught: the run
    closes the listener and returns normally, with no exception. *)
Theorem interrupt_is_clean_shutdown (env : Env) (w : World) (d : string) (p : Z) :
  fst (get_base_dir env w) = Ret d ->
  enterable env d ->
  has_entry env d START_PAGE ->
  console_ok env ->
  PORT <= p < PORT + 20 ->
  (forall q, PORT <= q < p -> occupied env q) ->
  free env p ->
  browser_returns env ->
  (forall h, serve_answer env h HOST p = Raise KeyboardInterrupt) ->
  fst (run_server env w) = Ret tt /\
  trace (snd (run_server env w)) =
    trace w ++ startup_trace d p ++
    [BrowserOpen (site_url p); ServeForever HOST p; ServerClose HOST p] /\
  sockets (snd (run_server env w)) = sockets w.
Proof.
  intros Hd Hcd Hpage Hout Hp Hocc Hfree Hbrowser Hint.
  rewrite (run_reaches_serve env w d p) by assumption.
  rewrite serve_cases. cbn [server_address fst snd trace].
  rewrite Hint. unfold served_and_closed.
  cbn [isinstance_KeyboardInterrupt fst snd trace sockets server_address].
  rewrite release_head. split; [reflexivity|]. split; [|reflexivity].
  repeat rewrite <- app_assoc. reflexivity.
Qed.

Lemma interrupt_is_clean_shutdown_witness :
  fst (run_server second_instance home) = Ret tt /\
  trace (snd (run_server second_instance home)) =
    trace home ++ startup_trace "/srv/site" 8001 ++
    [BrowserOpen (site_url 8001); ServeForever HOST 8001; ServerClose HOST 8001] /\
  sockets (snd (run_server second_instance home)) = sockets home.
Proof.
  apply (interrupt_is_clean_shutdown second_instance home "/srv/site" 8001).
  - reflexivity.
  - intros h. reflexivity.
  - intros h. cbn. discriminate.
  - intros h text. reflexivity.
  - unfold PORT. lia.
  - unfold PORT. intros q Hq h. assert (q = 8000) as -> by lia.
    exists (OSError 98). split; reflexivity.
  - intros h. reflexivity.
  - intros h url. exists true. reflexivity.
  - intros h. reflexivity.
Defined.

(** ** Release of the listener *)

(** C4, on the code.  An exception between the construction of the
    listener (line 38) and the [try] of line 60 leaves [run_server] with
    the listener still bound: here Ctrl-C during the browser launch, and
    a banner line the console cannot encode.  In both runs the socket on
    port 8000 is held at exit and [server_close] was never called. *)
Theorem listener_left_open_before_serving :
  run_server interrupted_launch home =
    (Raise KeyboardInterrupt,
     mkWorld "/srv/site" [(HOST, 8000)]
       (startup_trace "/srv/site" 8000 ++ [BrowserOpen (site_url 8000)])) /\
  run_server narrow_console home =
    (Raise UnicodeEncodeError,
     mkWorld "/srv/site" [(HOST, 8000)]
       [Chdir "/srv/site"; Exists START_PAGE; Bind HOST 8000;
        Print "===================================";
        Print " Local site server is running";
        Print "-----------------------------------";
        Print " Folder: /srv/site"]).
Proof. split; vm_compute; reflexivity. Qed.

(** ** Process state *)

(** [run_server] by the answers to its first two questions. *)
Lemma run_server_by_cases (env : Env) (w : World) (d : string) :
  fst (get_base_dir env w) = Ret d ->
  run_server env w =
  match chdir_answer env (trace w) d with
  | Some e => (Raise e, log (Chdir d) w)
  | None =>
      match fs env (trace w ++ [Chdir d]) d START_PAGE with
      | Some _ =>
          allocate_and_serve env d
            (mkWorld d (sockets w) (trace w ++ [Chdir d; Exists START_PAGE]))
      | None =>
          (print env ("ERROR: " ++ START_PAGE ++ " not found in:" ++ LF ++ d)%string ;;
           input env "Press Enter to exit..." ;; ret tt)%py
            (mkWorld d (sockets w) (trace w ++ [Chdir d; Exists START_PAGE]))
      end
  end.
Proof.
  intros Hd. unfold run_server, bind at 1.
  rewrite (get_base_dir_run _ _ _ Hd).
  unfold bind at 1, os_chdir.
  destruct (chdir_answer env (trace w) d) as [e|]; [reflexivity|].
  unfold bind at 1, os_path_exists. cbn [cwd trace sockets log].
  destruct (fs env (trace w ++ [Chdir d]) d START_PAGE) as [n|];
    cbn [negb]; tidy; reflexivity.
Qed.

(** C9 as stated fails: a run started in /home/user ends in /srv/site. *)
Lemma working_directory_is_changed :
  cwd (snd (run_server second_instance home)) <> cwd home.
Proof. vm_compute. discriminate. Qed.

(** In the model: where a run ends and what sockets it holds, by the
    answer of [os.chdir]. *)
Lemma run_frame (env : Env) (w : World) (d : string) :
  fst (get_base_dir env w) = Ret d ->
  cwd (snd (run_server env w)) =
    match chdir_answer env (trace w) d with
    | None => d
    | Some _ => cwd w
    end /\
  (sockets (snd (run_server env w)) = sockets w \/
   exists p, PORT <= p < PORT + 20 /\
     sockets (snd (run_server env w)) = (HOST, p) :: sockets w).
Proof.
  intros Hd. rewrite (run_server_by_cases env w d Hd).
  destruct (chdir_answer env (trace w) d) as [e|].
  - unfold log. cbn [snd cwd sockets]. split; [reflexivity | left; reflexivity].
  - destruct (fs env (trace w ++ [Chdir d]) d START_PAGE) as [n|].
    + match goal with |- context [allocate_and_serve env d ?w1] =>
        destruct (allocate_and_serve_frame env d w1) as [Hc Hs] end.
      cbn [cwd sockets] in Hc, Hs. split; assumption.
    + match goal with |- context [bind ?m ?k ?w1] =>
        assert (Hq : quiet (bind m k));
        [| destruct (Hq w1) as [H1 H2]; cbn [cwd sockets] in H1, H2; auto] end.
      apply quiet_bind; [apply quiet_print|]. intros _.
      apply quiet_bind; [apply quiet_input|]. intros _. apply quiet_ret.
Qed.

(** ** The request handler *)

Section HandlerFacts.

Variable request : Type.
Variable os_getcwd : string.
Variable inherited : request -> string -> list step.
Variable requestline : request -> string.
Variable log_prefix : request -> string.
Variable percent : string -> list string -> string.

(** With the quiet hook the inherited steps leave both process streams
    alone and send what the stock hook would let them send. *)
Lemma perform_quiet (self : request) (steps : list step) :
  forall st st0 : Streams,
  wfile st = wfile st0 ->
  let quiet_end := perform request requestline (QuietHandler_log_message request) self steps st in
  let stock_end := perform request requestline
                     (BaseHTTPRequestHandler_log_message request log_prefix percent)
                     self steps st0 in
  stdout quiet_end = stdout st /\ stderr quiet_end = stderr st /\
  wfile quiet_end = wfile stock_end.
Proof.
  induction steps as [|s steps IH]; intros st st0 Hw; cbn zeta.
  - cbn. auto.
  - destruct s as [data | code size | format args]; cbn [perform].
    + destruct (IH (mkStreams (stdout st) (stderr st) (wfile st ++ [data]))
                   (mkStreams (stdout st0) (stderr st0) (wfile st0 ++ [data])))
        as (H1 & H2 & H3); [cbn; congruence|].
      cbn zeta in *. cbn [stdout stderr] in H1, H2. auto.
    + apply IH. exact Hw.
    + apply IH. exact Hw.
Qed.

(** The stock hook does log: the model tells the two classes apart. *)
Lemma stock_handler_logs (base_dir : string) (args : request) (st : Streams)
    (code size : string) :
  inherited args base_dir = [LogRequest code size] ->
  stderr (stock_handler request os_getcwd inherited requestline log_prefix percent
            base_dir args st) <> stderr st.
Proof.
  intros Hsteps. unfold stock_handler, SimpleHTTPRequestHandler___init__.
  rewrite Hsteps. cbn. intros H.
  apply (f_equal (@List.length string)) in H. rewrite List.length_app in H.
  cbn in H. lia.
Qed.

(** C8. The [log_message] of [QuietHandler] is a no-op, and for every
    request the handler of line 37 writes nothing to standard output or
    standard error, whatever the inherited code reports through
    [log_request] and [log_error]; the reply it sends is the one the
    stock handler on the same directory sends, and its constructor is
    the stock constructor run on the quiet class. *)
Theorem quiet_handler_logs_nothing (base_dir : string) (args : request) (st : Streams) :
  (forall self format fargs st1,
     QuietHandler_log_message request self format fargs st1 = st1) /\
  stdout (handler request os_getcwd inherited requestline base_dir args st) = stdout st /\
  stderr (handler request os_getcwd inherited requestline base_dir args st) = stderr st /\
  wfile (handler request os_getcwd inherited requestline base_dir args st) =
    wfile (stock_handler request os_getcwd inherited requestline log_prefix percent
             base_dir args st) /\
  (forall directory,
     QuietHandler___init__ request os_getcwd inherited requestline args directory =
     SimpleHTTPRequestHandler___init__ request os_getcwd inherited requestline
       (QuietHandler_log_message request) args directory).
Proof.
  split; [reflexivity|].
  unfold handler, stock_handler, QuietHandler___init__, SimpleHTTPRequestHandler___init__.
  destruct (perform_quiet args (inherited args base_dir) st st eq_refl)
    as (H1 & H2 & H3).
  repeat split; assumption.
Qed.

End HandlerFacts.

(** ** Further behaviour of run_server: failures on the way *)

(** Over taken ports the loop only moves on. *)
Lemma port_loop_walk (env : Env) (d : string) (n : nat) :
  forall (p : Z) (h : option TCPServer) (w : World),
  (forall q, p <= q < p + Z.of_nat n -> occupied env q) ->
  p + Z.of_nat n <= PORT + 20 ->
  port_loop env d p h w =
  port_loop env d (p + Z.of_nat n) h
    (mkWorld (cwd w) (sockets w) (trace w ++ map (Bind HOST) (ports_from p n))).
Proof.
  induction n as [|n IH]; intros p h w Hocc Hle.
  - cbn. rewrite Z.add_0_r, app_nil_r. destruct w. reflexivity.
  - rewrite port_loop_occupied by (try apply Hocc; lia).
    rewrite IH by (try (intros q Hq; apply Hocc); lia).
    tidy. f_equal. lia.
Qed.

(** An exception of the bind that is not an [OSError] leaves the loop. *)
Lemma port_loop_raises (env : Env) (d : string) (p : Z) (h : option TCPServer)
    (w : World) (e : exn) :
  p < PORT + 20 ->
  bind_answer env (trace w) HOST p = Some e ->
  isinstance_OSError e = false ->
  port_loop env d p h w = (Raise e, log (Bind HOST p) w).
Proof.
  intros Hlt Hb He. rewrite port_loop_step.
  destruct (Z_lt_dec p (PORT + 20)) as [_|Hn]; [|contradiction].
  unfold try_except, bind, TCPServer_new. cbn [fst snd].
  rewrite Hb, He. reflexivity.
Qed.

Lemma ports_from_snoc (n : nat) :
  forall q, ports_from q (S n) = ports_from q n ++ [q + Z.of_nat n].
Proof.
  induction n as [|n IH]; intros q.
  - cbn. rewrite Z.add_0_r. reflexivity.
  - change (ports_from q (S (S n))) with (q :: ports_from (q + 1) (S n)).
    rewrite IH. cbn [ports_from app]. do 3 f_equal. lia.
Qed.

Lemma probed_snoc (p : Z) :
  PORT <= p -> probed p = ports_from PORT (Z.to_nat (p - PORT)) ++ [p].
Proof.
  intros Hp. unfold probed. rewrite ports_from_snoc.
  rewrite Z2Nat.id by lia. do 2 f_equal. lia.
Qed.

(** X1. Only [OSError] moves the port loop on.  When the ports below [p]
    are taken and the bind of [p] raises anything else (Ctrl-C, say),
    the run ends with that exception: no port above [p] is tried, nothing
    is printed, and no socket is left behind. *)
Theorem other_bind_errors_propagate (env : Env) (w : World) (d : string)
    (p : Z) (e : exn) :
  fst (get_base_dir env w) = Ret d ->
  enterable env d ->
  has_entry env d START_PAGE ->
  PORT <= p < PORT + 20 ->
  (forall q, PORT <= q < p -> occupied env q) ->
  (forall h, bind_answer env h HOST p = Some e) ->
  isinstance_OSError e = false ->
  run_server env w =
  (Raise e,
   mkWorld d (sockets w)
     (trace w ++ [Chdir d; Exists START_PAGE] ++ map (Bind HOST) (probed p))).
Proof.
  intros Hd Hcd Hpage Hp Hocc Hb He.
  rewrite (startup_passes env w d) by assumption.
  unfold allocate_and_serve, bind at 1.
  rewrite (port_loop_walk env d (Z.to_nat (p - PORT)));
    rewrite ?Z2Nat.id by lia;
    replace (PORT + (p - PORT)) with p by lia; try assumption; try lia.
  rewrite (port_loop_raises env d p None _ e) by (trivial; lia).
  rewrite probed_snoc by lia. rewrite map_app. tidy. reflexivity.
Qed.

Lemma other_bind_errors_propagate_witness :
  run_server interrupted_bind home =
  (Raise KeyboardInterrupt,
   mkWorld "/srv/site" []
     [Chdir "/srv/site"; Exists START_PAGE; Bind HOST 8000; Bind HOST 8001]).
Proof.
  apply (other_bind_errors_propagate interrupted_bind home "/srv/site" 8001).
  - reflexivity.
  - intros h. reflexivity.
  - intros h. cbn. discriminate.
  - unfold PORT. lia.
  - unfold PORT. intros q Hq h. assert (q = 8000) as -> by lia.
    exists (OSError 98). split; reflexivity.
  - intros h. reflexivity.
  - reflexivity.
Defined.

(** X2. An exception of the serve loop other than KeyboardInterrupt is
    not caught, but the [finally] still runs: the run ends with that
    exception and the listener closed. *)
Theorem serve_errors_propagate_after_close (env : Env) (w : World) (d : string)
    (p : Z) (e : exn) :
  fst (get_base_dir env w) = Ret d ->
  reaches_serving env d p ->
  (forall h, serve_answer env h HOST p = Raise e) ->
  isinstance_KeyboardInterrupt e = false ->
  fst (run_server env w) = Raise e /\
  trace (snd (run_server env w)) =
    trace w ++ startup_trace d p ++
    [BrowserOpen (site_url p); ServeForever HOST p; ServerClose HOST p] /\
  sockets (snd (run_server env w)) = sockets w.
Proof.
  intros Hd (Hcd & Hpage & Hout & Hp & Hocc & Hfree & Hbrowser) Hserve He.
  rewrite (run_reaches_serve env w d p) by assumption.
  rewrite serve_cases. cbn [server_address fst snd trace].
  rewrite Hserve, He. unfold served_and_closed.
  cbn [fst snd trace sockets server_address].
  rewrite release_head. split; [reflexivity|]. split; [|reflexivity].
  repeat rewrite <- app_assoc. reflexivity.
Qed.

Lemma serve_errors_propagate_after_close_witness :
  fst (run_server crashing_loop home) = Raise (OtherException "ValueError") /\
  trace (snd (run_server crashing_loop home)) =
    trace home ++ startup_trace "/srv/site" 8000 ++
    [BrowserOpen (site_url 8000); ServeForever HOST 8000; ServerClose HOST 8000] /\
  sockets (snd (run_server crashing_loop home)) = sockets home.
Proof.
  apply (serve_errors_propagate_after_close crashing_loop home "/srv/site" 8000).
  - reflexivity.
  - split; [|split; [|split; [|split; [|split; [|split]]]]].
    + intros h. reflexivity.
    + intros h. cbn. discriminate.
    + intros h text. reflexivity.
    + unfold PORT. lia.
    + unfold PORT. intros q Hq. lia.
    + intros h. reflexivity.
    + intros h url. exists true. reflexivity.
  - intros h. reflexivity.
  - reflexivity.
Defined.

(** X3. While the serve loop runs and does not come back, the process
    sits in the base directory and holds the listener on the port found,
    the last call made being [serve_forever]: the banner is out and the
    browser was pointed at the URL the banner shows. *)
Theorem serving_holds_the_listener (env : Env) (w : World) (d : string) (p : Z) :
  fst (get_base_dir env w) = Ret d ->
  reaches_serving env d p ->
  (forall h, serve_answer env h HOST p = Forever) ->
  run_server env w =
  (Forever,
   mkWorld d ((HOST, p) :: sockets w)
     (trace w ++ [Chdir d; Exists START_PAGE] ++ map (Bind HOST) (probed p) ++
      banner d p ++
      [BrowserOpen ("http://127.0.0.1:" ++ str p ++ "/main.html")%string;
       ServeForever HOST p])).
Proof.
  intros Hd (Hcd & Hpage & Hout & Hp & Hocc & Hfree & Hbrowser) Hserve.
  rewrite (run_reaches_serve env w d p) by assumption.
  rewrite serve_cases. cbn [server_address fst snd trace].
  rewrite Hserve. unfold startup_trace. tidy. reflexivity.
Qed.

Lemma serving_holds_the_listener_witness :
  run_server no_browser home =
  (Forever,
   mkWorld "/srv/site" [(HOST, 8000)]
     ([Chdir "/srv/site"; Exists START_PAGE; Bind HOST 8000] ++
      banner "/srv/site" 8000 ++
      [BrowserOpen "http://127.0.0.1:8000/main.html"; ServeForever HOST 8000])).
Proof.
  apply (serving_holds_the_listener no_browser home "/srv/site" 8000).
  - reflexivity.
  - split; [|split; [|split; [|split; [|split; [|split]]]]].
    + intros h. reflexivity.
    + intros h. cbn. discriminate.
    + intros h text. reflexivity.
    + unfold PORT. lia.
    + unfold PORT. intros q Hq. lia.
    + intros h. reflexivity.
    + intros h url. exists false. reflexivity.
  - intros h. reflexivity.
Defined.

(** X4. [os.chdir] is outside every handler: when it raises, the run
    ends with that exception at once.  No error line is printed, no
    prompt shown, no port tried; the working directory stays, and the
    process exits with a failure status. *)
Theorem chdir_failure_aborts (env : Env) (w : World) (d : string) (e : exn) :
  fst (get_base_dir env w) = Ret d ->
  chdir_answer env (trace w) d = Some e ->
  run_server env w = (Raise e, mkWorld (cwd w) (sockets w) (trace w ++ [Chdir d])) /\
  main env w = Some (if isinstance_KeyboardInterrupt e then 130 else 1).
Proof.
  intros Hd Hcd. unfold main.
  rewrite (run_server_by_cases env w d Hd), Hcd. split; [reflexivity|].
  destruct e; reflexivity.
Qed.

Lemma chdir_failure_aborts_witness :
  run_server locked_out home =
    (Raise (OSError 13), mkWorld "/home/user" [] [Chdir "/srv/site"]) /\
  main locked_out home = Some 1.
Proof.
  apply (chdir_failure_aborts locked_out home "/srv/site" (OSError 13));
    reflexivity.
Defined.

(** X5. The pause of the two fatal paths is itself unprotected: when
    [input] raises (end of file on a closed standard input, Ctrl-C at the
    prompt), the exception leaves [run_server] and the process exits with
    a failure status instead of 0; the error line has been printed and no
    socket is held. *)
Theorem prompt_failure_escapes (env : Env) (w : World) (d : string) (e : exn) :
  fst (get_base_dir env w) = Ret d ->
  enterable env d ->
  lacks_entry env d START_PAGE \/
  (has_entry env d START_PAGE /\ forall p, PORT <= p < PORT + 20 -> occupied env p) ->
  console_ok env ->
  (forall h prompt, input_answer env h prompt = inl e) ->
  fst (run_server env w) = Raise e /\
  main env w <> Some 0 /\
  sockets (snd (run_server env w)) = sockets w /\
  exists t text,
    trace (snd (run_server env w)) =
      trace w ++ t ++ [Print text; Input "Press Enter to exit..."].
Proof.
  intros Hd Hcd Hcase Hout Hin.
  assert (G : exists t text,
            run_server env w =
            (Raise e,
             mkWorld d (sockets w)
               (trace w ++ t ++ [Print text; Input "Press Enter to exit..."]))).
  { destruct Hcase as [Hpage | [Hpage Hocc]].
    - exists [Chdir d; Exists START_PAGE]. eexists.
      rewrite (run_server_by_cases env w d Hd), Hcd, Hpage.
      unfold bind, print, input. cbn [trace]. rewrite Hout.
      unfold log. cbn [trace]. rewrite Hin. tidy. reflexivity.
    - exists ([Chdir d; Exists START_PAGE] ++ map (Bind HOST) (ports_from PORT 20)).
      eexists.
      rewrite (startup_passes env w d) by assumption.
      unfold allocate_and_serve, bind at 1.
      rewrite (port_loop_exhausts env d 20) by (assumption || reflexivity).
      cbn [snd fst].
      unfold bind, print, input. cbn [trace]. rewrite Hout.
      unfold log. cbn [trace]. rewrite Hin. tidy. reflexivity. }
  destruct G as (t & text & G). unfold main. rewrite G. cbn [fst snd sockets trace].
  split; [reflexivity|]. split; [destruct e; discriminate|].
  split; [reflexivity|]. exists t, text. reflexivity.
Qed.

Lemma prompt_failure_escapes_witness :
  fst (run_server no_stdin home) = Raise EOFError /\
  main no_stdin home <> Some 0 /\
  sockets (snd (run_server no_stdin home)) = sockets home /\
  exists t text,
    trace (snd (run_server no_stdin home)) =
      trace home ++ t ++ [Print text; Input "Press Enter to exit..."].
Proof.
  apply (prompt_failure_escapes no_stdin home "/srv/site" EOFError).
  - reflexivity.
  - intros h. reflexivity.
  - left. intros h. reflexivity.
  - intros h text. reflexivity.
  - intros h prompt. reflexivity.
Defined.

(** X6. Where the process was started does not matter: two runs that
    resolve the same base directory and can enter it behave alike from
    there on, results and final worlds included, whatever their working
    directories were. *)
Theorem launch_directory_is_irrelevant (env : Env) (w1 w2 : World) (d : string) :
  fst (get_base_dir env w1) = Ret d ->
  fst (get_base_dir env w2) = Ret d ->
  trace w1 = trace w2 ->
  sockets w1 = sockets w2 ->
  chdir_answer env (trace w1) d = None ->
  run_server env w1 = run_server env w2.
Proof.
  intros H1 H2 Ht Hs Hcd.
  rewrite (run_server_by_cases env w1 d H1), (run_server_by_cases env w2 d H2).
  rewrite <- Ht, <- Hs, Hcd. reflexivity.
Qed.

Lemma launch_directory_is_irrelevant_witness :
  run_server second_instance home = run_server second_instance elsewhere.
Proof.
  apply (launch_directory_is_irrelevant second_instance home elsewhere "/srv/site");
    reflexivity.
Defined.

(** ** Every run, whatever the environment answers *)

Lemma get_base_dir_returns (env : Env) (w : World) :
  exists d, fst (get_base_dir env w) = Ret d.
Proof.
  unfold get_base_dir, hasattr_sys__MEIPASS, attr_sys__MEIPASS, ret.
  destruct (sys__MEIPASS (sys env)); rewrite ?andb_false_r;
    [destruct (truthy _)|]; cbn; eauto.
Qed.

Lemma allocate_and_serve_by_cases (env : Env) (d : string) (w : World) :
  allocate_and_serve env d w =
  match port_loop env d PORT None w with
  | (Ret ph, w1) =>
      match snd ph with
      | None =>
          (print env "ERROR: Could not bind to a port (8000-8019)." ;;
           input env "Press Enter to exit..." ;; ret tt)%py w1
      | Some httpd => announce env d (fst ph) httpd w1
      end
  | (Raise e, w1) => (Raise e, w1)
  | (Forever, w1) => (Forever, w1)
  end.
Proof.
  unfold allocate_and_serve, bind at 1.
  destruct (port_loop env d PORT None w) as [[[q [httpd|]]|e|] w1]; reflexivity.
Qed.

Lemma silent_nil : silent [].
Proof. split; reflexivity. Qed.

Lemma after_listener_silent (q : Z) (t u : list event) :
  silent t -> after_listener q u -> after_listener q (t ++ u).
Proof.
  intros [Hb Hs] [Hb' Hs']. unfold after_listener.
  rewrite bind_attempts_app, serve_calls_app, Hb, Hs, Hb'. auto.
Qed.

Lemma silent_after_listener (q : Z) (t : list event) :
  silent t -> after_listener q t.
Proof. intros [Hb Hs]. split; auto. Qed.

Lemma emits_print (env : Env) (text : string) : emits silent (print env text).
Proof.
  intros w. exists [Print text]. unfold print.
  destruct (print_answer env (trace w) text); split; try reflexivity; apply silent_nil.
Qed.

Lemma emits_input (env : Env) (prompt : string) : emits silent (input env prompt).
Proof.
  intros w. exists [Input prompt]. unfold input.
  destruct (input_answer env (trace w) prompt); split; try reflexivity; apply silent_nil.
Qed.

Lemma emits_browser (env : Env) (url : string) : emits silent (webbrowser_open env url).
Proof.
  intros w. exists [BrowserOpen url]. unfold webbrowser_open.
  destruct (browser_answer env (trace w) url); split; try reflexivity; apply silent_nil.
Qed.

Lemma emits_ret {A} (P : list event -> Prop) (a : A) : P [] -> emits P (ret a).
Proof. intros HP w. exists []. cbn. rewrite app_nil_r. auto. Qed.

(** After silent events, what the continuation may emit is what the
    whole may emit, for any [P] that silent events do not disturb. *)
Lemma emits_after_silent {A B} (P : list event -> Prop) (m : M A) (k : A -> M B) :
  (forall t u, silent t -> P u -> P (t ++ u)) ->
  P [] ->
  emits silent m -> (forall a, emits P (k a)) -> emits P (bind m k).
Proof.
  intros Hclosed Hnil Hm Hk w. unfold bind.
  destruct (Hm w) as [t [Ht Hs]].
  destruct (m w) as [[a|e|] w1]; cbn [snd] in *.
  - destruct (Hk a w1) as [u [Hu HP]]. exists (t ++ u).
    rewrite Hu, Ht, app_assoc. auto.
  - exists t. split; [assumption|].
    rewrite <- (app_nil_r t). auto.
  - exists t. split; [assumption|].
    rewrite <- (app_nil_r t). auto.
Qed.

Lemma emits_serve (env : Env) (q : Z) (d : string) :
  emits (after_listener q) (serve env (mkServer (HOST, q) d)).
Proof.
  intros w. rewrite serve_cases. cbn [server_address fst snd].
  destruct (serve_answer env (trace w) HOST q) as [[]|e|];
    unfold served_and_closed; cbn [snd trace log server_address fst];
    eexists; (split; [reflexivity | split; [reflexivity | right; reflexivity]]).
Qed.

Lemma emits_announce (env : Env) (q : Z) (d : string) :
  emits (after_listener q) (announce env d q (mkServer (HOST, q) d)).
Proof.
  unfold announce.
  repeat (apply emits_after_silent;
          [ apply after_listener_silent
          | apply silent_after_listener, silent_nil
          | first [apply emits_print | apply emits_browser]
          | intros _ ]).
  apply emits_serve.
Qed.

Lemma emits_pause (env : Env) (text : string) :
  emits silent (print env text ;; input env "Press Enter to exit..." ;; ret tt)%py.
Proof.
  assert (Hclosed : forall t u, silent t -> silent u -> silent (t ++ u)).
  { intros t u [H1 H2] [H3 H4]. unfold silent.
    rewrite bind_attempts_app, serve_calls_app, H1, H2, H3, H4. auto. }
  apply emits_after_silent; [exact Hclosed | apply silent_nil | apply emits_print |].
  intros _.
  apply emits_after_silent; [exact Hclosed | apply silent_nil | apply emits_input |].
  intros _. apply emits_ret, silent_nil.
Qed.

(** The binds of the port loop, in any environment: consecutive ports
    from where it starts, never past the bound; a listener it returns is
    on the last port tried. *)
Lemma port_loop_trace (env : Env) (d : string) (fuel : nat) :
  forall (p : Z) (w : World),
  PORT <= p <= PORT + 20 -> (candidates_left p <= fuel)%nat ->
  exists n : nat,
    trace (snd (port_loop env d p None w)) =
      trace w ++ map (Bind HOST) (ports_from p n) /\
    p + Z.of_nat n <= PORT + 20 /\
    forall q h, fst (port_loop env d p None w) = Ret (q, Some h) ->
                exists k, n = S k /\ q = p + Z.of_nat k.
Proof.
  induction fuel as [|fuel IH]; intros p w Hp Hfuel; rewrite port_loop_step;
    destruct (Z_lt_dec p (PORT + 20)) as [Hlt|Hge];
    try (exists O; cbn [ret fst snd ports_from map]; rewrite app_nil_r;
         split; [reflexivity | split; [lia | discriminate]]);
    try (unfold candidates_left in Hfuel; lia).
  unfold try_except, bind, TCPServer_new, ret. cbn [fst snd].
  destruct (bind_answer env (trace w) HOST p) as [e|].
  - destruct (isinstance_OSError e).
    + assert (Hfuel' : (candidates_left (p + 1) <= fuel)%nat)
        by (unfold candidates_left in *; lia).
      destruct (IH (p + 1) (log (Bind HOST p) w) ltac:(lia) Hfuel')
        as [n [Ht [Hle Hq]]].
      exists (S n). split; [|split].
      * rewrite Ht. tidy. reflexivity.
      * lia.
      * intros q h Hr. destruct (Hq q h Hr) as [k [-> ->]].
        exists (S k). split; [reflexivity | lia].
    + exists 1%nat. cbn [fst snd log trace ports_from map].
      split; [reflexivity | split; [lia | discriminate]].
  - exists 1%nat. cbn [fst snd trace ports_from map].
    split; [reflexivity|]. split; [lia|].
    intros q h [= <- _]. exists O. split; [reflexivity | lia].
Qed.

Lemma no_bind_among (t : list event) (host : string) (p : Z) :
  bind_attempts t = [] -> ~ In (Bind host p) t.
Proof.
  induction t as [|ev t IH]; intros Hb Hin; [contradiction|].
  destruct Hin as [Hin|Hin].
  - subst ev. discriminate.
  - destruct ev; cbn in Hb; try discriminate; exact (IH Hb Hin).
Qed.

(** The shape of the trace of any run. *)
Lemma run_trace_shape (env : Env) (w : World) :
  exists (t : list event) (n : nat),
    (n <= 20)%nat /\
    trace (snd (run_server env w)) = trace w ++ t /\
    bind_attempts t = ports_from PORT n /\
    (forall host p, In (Bind host p) t -> host = HOST) /\
    (serve_calls t = [] \/
     exists k, n = S k /\ serve_calls t = [PORT + Z.of_nat k]).
Proof.
  destruct (get_base_dir_returns env w) as [d Hd].
  rewrite (run_server_by_cases env w d Hd).
  destruct (chdir_answer env (trace w) d) as [e|].
  { exists [Chdir d], O. cbn. repeat split; auto; try lia.
    intros host p [H|[]]. discriminate. }
  destruct (fs env (trace w ++ [Chdir d]) d START_PAGE) as [nd|].
  2:{ match goal with |- context [bind ?m ?k ?w1] =>
        destruct (emits_pause env
                    ("ERROR: " ++ START_PAGE ++ " not found in:" ++ LF ++ d)%string w1)
          as [u [Hu [Hb Hs]]] end.
      exists ([Chdir d; Exists START_PAGE] ++ u), O.
      rewrite Hu. cbn [trace]. split; [lia|]. split; [tidy; reflexivity|].
      rewrite bind_attempts_app, serve_calls_app, Hb, Hs. cbn.
      split; [reflexivity|]. split; [|left; reflexivity].
      intros host p [H|[H|H]]; try discriminate.
      exfalso. exact (no_bind_among u host p Hb H). }
  rewrite allocate_and_serve_by_cases.
  match goal with |- context [port_loop env d PORT None ?w1] =>
    destruct (port_loop_trace env d (candidates_left PORT) PORT w1
                ltac:(lia) ltac:(lia)) as [n [Ht [Hle Hq]]];
    pose proof (port_loop_frame env d (candidates_left PORT) PORT w1
                  ltac:(lia) ltac:(lia)) as [_ Hframe];
    destruct (port_loop env d PORT None w1) as [[[q [httpd|]]|e|] w2]
  end; cbn [fst snd trace] in *.
  - destruct Hframe as [-> _].
    destruct (Hq q _ eq_refl) as [k [-> ->]].
    destruct (emits_announce env (PORT + Z.of_nat k) d w2) as [u [Hu [Hb Hs]]].
    exists ([Chdir d; Exists START_PAGE] ++
            map (Bind HOST) (ports_from PORT (S k)) ++ u), (S k).
    rewrite Hu, Ht. split; [lia|]. split; [tidy; reflexivity|].
    rewrite !bind_attempts_app, !serve_calls_app, bind_attempts_binds,
      serve_calls_binds, Hb.
    cbn [bind_attempts serve_calls app]. rewrite app_nil_r.
    split; [reflexivity|]. split.
    + intros host p Hin. cbn [app] in Hin.
      destruct Hin as [H|[H|H]]; try discriminate.
      apply in_app_or in H. destruct H as [H|H].
      * apply in_map_iff in H. destruct H as [x [[= <- _] _]]. reflexivity.
      * exfalso. exact (no_bind_among u host p Hb H).
    + destruct Hs as [Hs|Hs]; rewrite Hs; [left; reflexivity|].
      right. exists k. split; reflexivity.
  - destruct (emits_pause env "ERROR: Could not bind to a port (8000-8019)." w2)
      as [u [Hu [Hb Hs]]].
    exists ([Chdir d; Exists START_PAGE] ++ map (Bind HOST) (ports_from PORT n) ++ u), n.
    rewrite Hu, Ht. split; [lia|]. split; [tidy; reflexivity|].
    rewrite !bind_attempts_app, !serve_calls_app, bind_attempts_binds,
      serve_calls_binds, Hb, Hs.
    cbn [bind_attempts serve_calls app]. rewrite app_nil_r.
    split; [reflexivity|]. split; [|left; reflexivity].
    intros host p Hin. cbn [app] in Hin.
    destruct Hin as [H|[H|H]]; try discriminate.
    apply in_app_or in H. destruct H as [H|H].
    + apply in_map_iff in H. destruct H as [x [[= <- _] _]]. reflexivity.
    + exfalso. exact (no_bind_among u host p Hb H).
  - exists ([Chdir d; Exists START_PAGE] ++ map (Bind HOST) (ports_from PORT n)), n.
    rewrite Ht. split; [lia|]. split; [tidy; reflexivity|].
    rewrite !bind_attempts_app, !serve_calls_app, bind_attempts_binds,
      serve_calls_binds.
    cbn [bind_attempts serve_calls app].
    split; [reflexivity|]. split; [|left; reflexivity].
    intros host p Hin. cbn [app] in Hin.
    destruct Hin as [H|[H|H]]; try discriminate.
    apply in_map_iff in H. destruct H as [x [[= <- _] _]]. reflexivity.
  - exists ([Chdir d; Exists START_PAGE] ++ map (Bind HOST) (ports_from PORT n)), n.
    rewrite Ht. split; [lia|]. split; [tidy; reflexivity|].
    rewrite !bind_attempts_app, !serve_calls_app, bind_attempts_binds,
      serve_calls_binds.
    cbn [bind_attempts serve_calls app].
    split; [reflexivity|]. split; [|left; reflexivity].
    intros host p Hin. cbn [app] in Hin.
    destruct Hin as [H|[H|H]]; try discriminate.
    apply in_map_iff in H. destruct H as [x [[= <- _] _]]. reflexivity.
Qed.

(** X7. Whatever the environment answers, the binds of a run are on the
    loopback address only, on consecutive ports upwards from 8000, and at
    most 20 of them: no port outside 8000..8019 is ever tried and none is
    tried twice. *)
Theorem binds_stay_in_range (env : Env) (w : World) :
  exists (t : list event) (n : nat),
    trace (snd (run_server env w)) = trace w ++ t /\
    (n <= 20)%nat /\
    bind_attempts t = ports_from 8000 n /\
    forall host p, In (Bind host p) t -> host = "127.0.0.1"%string.
Proof.
  destruct (run_trace_shape env w) as (t & n & Hn & Ht & Hb & Hh & _).
  exists t, n. auto.
Qed.

(** X8. Whatever the environment answers, a run enters the serve loop
    at most once, and when it does, it serves on the last port it tried
    to bind. *)
Theorem serves_once_on_last_port (env : Env) (w : World) :
  exists t : list event,
    trace (snd (run_server env w)) = trace w ++ t /\
    (serve_calls t = [] \/
     exists k : nat,
       (k < 20)%nat /\
       bind_attempts t = ports_from 8000 (S k) /\
       serve_calls t = [8000 + Z.of_nat k]).
Proof.
  destruct (run_trace_shape env w) as (t & n & Hn & Ht & Hb & _ & Hs).
  exists t. split; [assumption|].
  destruct Hs as [Hs | [k [-> Hs]]]; [left; assumption|].
  right. exists k. split; [lia|]. split; assumption.
Qed.

(** A computation that returns after a quiet first part. *)
Lemma bind_returns {A B} (m : M A) (k : A -> M B) (w w' : World) (b : B) :
  bind m k w = (Ret b, w') ->
  exists a w1, m w = (Ret a, w1) /\ k a w1 = (Ret b, w').
Proof.
  unfold bind. destruct (m w) as [[a|e|] w1]; intros H; try discriminate.
  exists a, w1. auto.
Qed.

Ltac step_returns H :=
  let a := fresh "a" in
  let w1 := fresh "w" in
  let Hm := fresh "Hm" in
  let Hq := fresh "Hq" in
  apply bind_returns in H; destruct H as (a & w1 & Hm & H);
  match type of Hm with
  | print ?e ?t ?w0 = _ => pose proof (quiet_print e t w0) as Hq
  | input ?e ?t ?w0 = _ => pose proof (quiet_input e t w0) as Hq
  | webbrowser_open ?e ?t ?w0 = _ => pose proof (quiet_browser e t w0) as Hq
  end;
  rewrite Hm in Hq; cbn [snd] in Hq; destruct Hq as [_ Hq].

Lemma announce_returns (env : Env) (d : string) (p : Z) (a : string * Z)
    (w w' : World) :
  announce env d p (mkServer a d) w = (Ret tt, w') ->
  sockets w' = release a (sockets w).
Proof.
  unfold announce. intros H.
  do 9 (step_returns H).
  rewrite serve_cases in H. cbn [server_address] in H.
  match type of H with context [serve_answer env ?h ?x ?y] =>
    destruct (serve_answer env h x y) as [[]|e|] end;
    [ | destruct (isinstance_KeyboardInterrupt e) | ];
    try discriminate; injection H as <-;
    unfold served_and_closed; cbn [sockets server_address]; congruence.
Qed.

(** X9. Whatever the environment answers, a run that returns normally
    leaves no socket behind: the process holds the sockets it held
    before.  A listener can outlive [run_server] only when it ends by an
    exception. *)
Theorem normal_return_leaves_no_socket (env : Env) (w : World) :
  fst (run_server env w) = Ret tt ->
  sockets (snd (run_server env w)) = sockets w.
Proof.
  destruct (get_base_dir_returns env w) as [d Hd].
  rewrite (run_server_by_cases env w d Hd).
  destruct (chdir_answer env (trace w) d) as [e|]; [discriminate|].
  assert (Hpause : forall text w1 w',
            (print env text ;; input env "Press Enter to exit..." ;; ret tt)%py w1
              = (Ret tt, w') -> sockets w' = sockets w1).
  { intros text w1 w' H.
    do 2 (step_returns H).
    injection H as <-. congruence. }
  destruct (fs env (trace w ++ [Chdir d]) d START_PAGE) as [nd|].
  - rewrite allocate_and_serve_by_cases.
    match goal with |- context [port_loop env d PORT None ?w1] =>
      pose proof (port_loop_frame env d (candidates_left PORT) PORT w1
                    ltac:(lia) ltac:(lia)) as [_ Hframe];
      destruct (port_loop env d PORT None w1) as [[[q [httpd|]]|e|] w2]
    end; cbn [fst snd sockets] in *; try discriminate.
    + destruct Hframe as (-> & _ & Hs). intros H.
      destruct (announce env d q (mkServer (HOST, q) d) w2) as [r w3] eqn:Ha.
      cbn [fst snd] in *. subst r.
      rewrite (announce_returns _ _ _ _ _ _ Ha), Hs. apply release_head.
    + intros H.
      match goal with |- context [bind ?m ?k ?w1] =>
        destruct (bind m k w1) as [r w3] eqn:Hp end.
      cbn [fst snd] in *. subst r.
      rewrite (Hpause _ _ _ Hp). exact Hframe.
  - intros H.
    match goal with |- context [bind ?m ?k ?w1] =>
      destruct (bind m k w1) as [r w3] eqn:Hp end.
    cbn [fst snd] in *. subst r.
    rewrite (Hpause _ _ _ Hp). reflexivity.
Qed.

Lemma normal_return_leaves_no_socket_witness :
  sockets (snd (run_server second_instance home)) = sockets home.
Proof.
  apply (normal_return_leaves_no_socket second_instance home).
  reflexivity.
Defined.

(** ** Exit status *)





(** ** Process state: the working directory *)

Lemma chdir_calls_app (t u : list event) :
  chdir_calls (t ++ u) = chdir_calls t ++ chdir_calls u.
Proof.
  induction t as [|ev t IH]; simpl; [reflexivity|].
  destruct ev; simpl; rewrite IH; reflexivity.
Qed.

Lemma chdir_calls_binds (host : string) (ps : list Z) :
  chdir_calls (map (Bind host) ps) = [].
Proof. induction ps as [|p ps IH]; simpl; congruence. Qed.

(** What both parts may emit the whole may emit, for a [P] that
    concatenation preserves. *)
Lemma emits_bind {A B} (P : list event -> Prop) (m : M A) (k : A -> M B) :
  (forall t u, P t -> P u -> P (t ++ u)) ->
  emits P m -> (forall a, emits P (k a)) -> emits P (bind m k).
Proof.
  intros Hclosed Hm Hk w. unfold bind.
  destruct (Hm w) as [t [Ht HP]].
  destruct (m w) as [[a|e|] w1]; cbn [snd] in *.
  - destruct (Hk a w1) as [u [Hu HQ]]. exists (t ++ u).
    rewrite Hu, Ht, app_assoc. auto.
  - exists t. split; assumption.
  - exists t. split; assumption.
Qed.

Lemma no_chdir_app (t u : list event) : no_chdir t -> no_chdir u -> no_chdir (t ++ u).
Proof. unfold no_chdir. intros Ht Hu. rewrite chdir_calls_app, Ht, Hu. reflexivity. Qed.

Lemma no_chdir_print (env : Env) (text : string) : emits no_chdir (print env text).
Proof.
  intros w. exists [Print text]. unfold print.
  destruct (print_answer env (trace w) text); split; reflexivity.
Qed.

Lemma no_chdir_input (env : Env) (prompt : string) : emits no_chdir (input env prompt).
Proof.
  intros w. exists [Input prompt]. unfold input.
  destruct (input_answer env (trace w) prompt); split; reflexivity.
Qed.

Lemma no_chdir_browser (env : Env) (url : string) : emits no_chdir (webbrowser_open env url).
Proof.
  intros w. exists [BrowserOpen url]. unfold webbrowser_open.
  destruct (browser_answer env (trace w) url); split; reflexivity.
Qed.

Lemma no_chdir_serve (env : Env) (httpd : TCPServer) : emits no_chdir (serve env httpd).
Proof.
  intros w. rewrite serve_cases.
  destruct (serve_answer env (trace w) _ _) as [[]|e|];
    unfold served_and_closed; cbn [snd trace log];
    eexists; (split; [reflexivity | reflexivity]).
Qed.

Lemma no_chdir_pause (env : Env) (text : string) :
  emits no_chdir (print env text ;; input env "Press Enter to exit..." ;; ret tt)%py.
Proof.
  apply emits_bind; [exact no_chdir_app | apply no_chdir_print |]. intros _.
  apply emits_bind; [exact no_chdir_app | apply no_chdir_input |]. intros _.
  apply emits_ret. reflexivity.
Qed.

Lemma no_chdir_announce (env : Env) (d : string) (p : Z) (httpd : TCPServer) :
  emits no_chdir (announce env d p httpd).
Proof.
  unfold announce.
  repeat (apply emits_bind;
          [ exact no_chdir_app
          | first [apply no_chdir_print | apply no_chdir_browser]
          | intros _ ]).
  apply no_chdir_serve.
Qed.

Lemma no_chdir_allocate_and_serve (env : Env) (d : string) :
  emits no_chdir (allocate_and_serve env d).
Proof.
  intros w. rewrite allocate_and_serve_by_cases.
  destruct (port_loop_trace env d (candidates_left PORT) PORT w
              ltac:(lia) ltac:(lia)) as [n [Ht _]].
  destruct (port_loop env d PORT None w) as [[[q [httpd|]]|e|] w1];
    cbn [fst snd] in *.
  - destruct (no_chdir_announce env d q httpd w1) as [u [Hu Hn]].
    exists (map (Bind HOST) (ports_from PORT n) ++ u).
    rewrite Hu, Ht, app_assoc. split; [reflexivity|].
    apply no_chdir_app; [apply chdir_calls_binds | exact Hn].
  - destruct (no_chdir_pause env "ERROR: Could not bind to a port (8000-8019)." w1)
      as [u [Hu Hn]].
    exists (map (Bind HOST) (ports_from PORT n) ++ u).
    rewrite Hu, Ht, app_assoc. split; [reflexivity|].
    apply no_chdir_app; [apply chdir_calls_binds | exact Hn].
  - exists (map (Bind HOST) (ports_from PORT n)).
    split; [exact Ht | apply chdir_calls_binds].
  - exists (map (Bind HOST) (ports_from PORT n)).
    split; [exact Ht | apply chdir_calls_binds].
Qed.

(** C9, amended.  A run does change process state outside the
    listener's lifecycle: its first call is [os.chdir] on the resolved
    base directory, it makes no other [chdir], and nothing after that
    call changes the working directory, so the run ends in the directory
    that call left; no later call restores the one before.  Of the
    sockets it touches only
    its own listener: at the end the process holds the sockets it held
    before, or those and the listener on one port of 8000..8019. *)
Theorem run_enters_base_directory (env : Env) (w : World) (d : string) :
  fst (get_base_dir env w) = Ret d ->
  (exists t,
     trace (snd (run_server env w)) = trace w ++ Chdir d :: t /\
     chdir_calls t = []) /\
  cwd (snd (run_server env w)) = cwd (snd (os_chdir env d w)) /\
  (sockets (snd (run_server env w)) = sockets w \/
   exists p, 8000 <= p < 8020 /\
     sockets (snd (run_server env w)) = ("127.0.0.1"%string, p) :: sockets w).
Proof.
  intros Hd. split; [|split].
  - rewrite (run_server_by_cases env w d Hd).
    destruct (chdir_answer env (trace w) d) as [e|].
    + exists []. split; reflexivity.
    + destruct (fs env (trace w ++ [Chdir d]) d START_PAGE) as [nd|].
      * match goal with |- context [allocate_and_serve env d ?w1] =>
          destruct (no_chdir_allocate_and_serve env d w1) as [u [Hu Hn]] end.
        exists (Exists START_PAGE :: u). rewrite Hu. cbn [trace].
        split; [tidy; reflexivity | exact Hn].
      * match goal with |- context [bind ?m ?k ?w1] =>
          destruct (no_chdir_pause env
                      ("ERROR: " ++ START_PAGE ++ " not found in:" ++ LF ++ d)%string w1)
            as [u [Hu Hn]] end.
        exists (Exists START_PAGE :: u). rewrite Hu. cbn [trace].
        split; [tidy; reflexivity | exact Hn].
  - destruct (run_frame env w d Hd) as [Hc _]. rewrite Hc.
    unfold os_chdir. destruct (chdir_answer env (trace w) d); reflexivity.
  - destruct (run_frame env w d Hd) as [_ Hs]. exact Hs.
Qed.

Lemma run_enters_base_directory_witness :
  (exists t,
     trace (snd (run_server second_instance home)) =
       trace home ++ Chdir "/srv/site" :: t /\
     chdir_calls t = []) /\
  cwd (snd (run_server second_instance home)) =
    cwd (snd (os_chdir second_instance "/srv/site" home)) /\
  (sockets (snd (run_server second_instance home)) = sockets home \/
   exists p, 8000 <= p < 8020 /\
     sockets (snd (run_server second_instance home)) =
       ("127.0.0.1"%string, p) :: sockets home).
Proof.
  apply (run_enters_base_directory second_instance home "/srv/site").
  reflexivity.
Defined.
